(** * adcircpy: NHC advisory wind forcing (forcing/winds/forecast.py)

    A shallow embedding of [NHCAdvisory]: the date window and its two
    validated bounds, the memoised windowed view, the region clipping scan,
    the velocity derivation, the record numberer and the fields of the
    fort.22 line, followed by the properties of each.

    Conventions of the embedding.
    - A Python exception is a value of [exn]; a computation that may raise
      returns a [result].
    - A timestamp is a whole number of hours since 1970-01-01 00h
      ([datetime := Z]); comparison, equality and difference of timestamps
      are those of [Z].
    - A measured number (coordinates, pressures, winds, radii) is a binary64
      float, the type of the numpy columns; [None] is [option].
    - pyproj, shapely, haversine and the numpy transcendental functions are
      the members of the class [Geometry]. *)

From Stdlib Require Import ZArith Bool Lia String Ascii List Sorted.
From Stdlib Require Import Floats.PrimFloat Floats.FloatOps Floats.SpecFloat.
Import ListNotations.

Local Open Scope Z_scope.

(* ================================================================== *)
(** ** Python runtime: exceptions, sequences, numbers, format          *)
(* ================================================================== *)

Inductive exn : Type :=
| AssertionError
| AttributeError
| IndexError
| OverflowError
| TypeError
| ValueError
| ZeroDivisionError.

(** Python's classes below [ArithmeticError]. *)
Definition is_ArithmeticError (e : exn) : bool :=
  match e with
  | ZeroDivisionError | OverflowError => true
  | _ => false
  end.

Inductive result (A : Type) : Type :=
| Ok (a : A)
| Raise (e : exn).

Arguments Ok {A} a.
Arguments Raise {A} e.

Definition bind {A B : Type} (m : result A) (k : A -> result B) : result B :=
  match m with
  | Ok a => k a
  | Raise e => Raise e
  end.

Notation "x <- m ;; k" := (bind m (fun x => k))
  (at level 61, m at next level, right associativity).

Definition assert (b : bool) : result unit :=
  if b then Ok tt else Raise AssertionError.

Fixpoint mapM {A B : Type} (f : A -> result B) (l : list A) : result (list B) :=
  match l with
  | [] => Ok []
  | a :: l' => b <- f a ;; bs <- mapM f l' ;; Ok (b :: bs)
  end.

Definition len {A : Type} (l : list A) : Z := Z.of_nat (List.length l).

(** [seq[i]] and [series.iloc[i]]: a negative index counts from the end,
    an index outside [-len, len) raises [IndexError]. *)
Definition py_index {A : Type} (l : list A) (i : Z) : result A :=
  let j := if i <? 0 then len l + i else i in
  if j <? 0 then Raise IndexError
  else match nth_error l (Z.to_nat j) with
       | Some a => Ok a
       | None => Raise IndexError
       end.

(** [range(a, b)]. *)
Definition range (a b : Z) : list Z :=
  map (fun k => a + Z.of_nat k) (seq 0 (Z.to_nat (b - a))).

(** [int(x)] of a float: truncation toward zero; [ValueError] on nan,
    [OverflowError] on an infinity. *)
Definition py_int (x : float) : result Z :=
  match Prim2SF x with
  | S754_zero _ => Ok 0
  | S754_infinity _ => Raise OverflowError
  | S754_nan => Raise ValueError
  | S754_finite s m e =>
      let mag := if 0 <=? e then Z.pos m * 2 ^ e else Z.pos m / 2 ^ (- e) in
      Ok (if s then - mag else mag)
  end.

Definition digit (d : Z) : ascii := ascii_of_nat (48 + Z.to_nat d).

Fixpoint str_digits (fuel : nat) (n : Z) (acc : string) : string :=
  match fuel with
  | O => acc
  | S fuel' =>
      let acc' := String (digit (n mod 10)) acc in
      if n / 10 =? 0 then acc' else str_digits fuel' (n / 10) acc'
  end.

(** [str(n)] of an int: its decimal digits, with a minus sign when negative. *)
Definition str (n : Z) : string :=
  let digits m := str_digits (S (Z.to_nat (Z.log2 m))) m EmptyString in
  if n <? 0 then String "-" (digits (- n)) else digits n.

Fixpoint spaces (n : nat) : string :=
  match n with
  | O => EmptyString
  | S k => String " " (spaces k)
  end.

Fixpoint zeros (n : nat) : string :=
  match n with
  | O => EmptyString
  | S k => String "0" (zeros k)
  end.

Inductive align : Type := AlignLeft | AlignRight | AlignCenter.

(** [f'{s:<w}'], [f'{s:>w}'] and [f'{s:^w}']: the width is a minimum, a
    longer [s] is not cut. *)
Definition format (a : align) (w : nat) (s : string) : string :=
  let pad := (w - String.length s)%nat in
  match a with
  | AlignLeft => s ++ spaces pad
  | AlignRight => spaces pad ++ s
  | AlignCenter => spaces (pad / 2) ++ s ++ spaces (pad - pad / 2)
  end.

Definition zfill (w : nat) (s : string) : string :=
  (zeros (w - String.length s) ++ s)%string.

(** A timestamp, in whole hours since 1970-01-01 00h. *)
Definition datetime : Type := Z.

(** Proleptic Gregorian (year, month, day) of a day count. *)
Definition civil_from_days (days : Z) : Z * Z * Z :=
  let z := days + 719468 in
  let era := z / 146097 in
  let doe := z - era * 146097 in
  let yoe := (doe - doe / 1460 + doe / 36524 - doe / 146096) / 365 in
  let doy := doe - (365 * yoe + yoe / 4 - yoe / 100) in
  let mp := (5 * doy + 2) / 153 in
  let d := doy - (153 * mp + 2) / 5 + 1 in
  let m := if mp <? 10 then mp + 3 else mp - 9 in
  let y := yoe + era * 400 in
  (if m <=? 2 then y + 1 else y, m, d).

(** [format(t, "%Y%m%d%H")]. *)
Definition strftime_YmdH (t : datetime) : string :=
  let '(y, m, d) := civil_from_days (t / 24) in
  (zfill 4 (str y) ++ zfill 2 (str m) ++ zfill 2 (str d)
     ++ zfill 2 (str (t mod 24)))%string.

(** [numpy.unique]: the sorted distinct values. *)
Fixpoint unique_insert (d : datetime) (l : list datetime) : list datetime :=
  match l with
  | [] => [d]
  | h :: r =>
      if d <? h then d :: h :: r
      else if d =? h then h :: r
      else h :: unique_insert d r
  end.

Definition unique (t : list datetime) : list datetime :=
  fold_right unique_insert [] t.

(** [numpy.where(numpy.asarray(t) == d)]: the positions holding [d], in
    increasing order. *)
Fixpoint where_from (k : nat) (t : list datetime) (d : datetime) : list nat :=
  match t with
  | [] => []
  | h :: r => if h =? d then k :: where_from (S k) r d else where_from (S k) r d
  end.

Definition where_eq (t : list datetime) (d : datetime) : list Z :=
  map Z.of_nat (where_from 0 t d).

(* ================================================================== *)
(** ** Data model: one row of the data frame                           *)
(* ================================================================== *)

Module DataRow.
Record t : Type := mk {
  basin : string;
  storm_number : Z;
  datetime : Z;
  record_type : string;
  latitude : float;
  longitude : float;
  max_sustained_wind_speed : float;
  central_pressure : float;
  development_level : option string;
  isotach : option float;
  quadrant : option string;
  radius_for_NEQ : option float;
  radius_for_SEQ : option float;
  radius_for_SWQ : option float;
  radius_for_NWQ : option float;
  background_pressure : option float;
  radius_of_last_closed_isobar : option float;
  radius_of_maximum_winds : option float;
  name : string;
  direction : option Z;
  speed : option Z
}.
End DataRow.

(** The column [data_frame[...]] of a list of rows. *)
Definition column {A : Type} (f : DataRow.t -> A) (df : list DataRow.t) : list A :=
  map f df.

(** The collaborators outside the repository: pyproj's Mercator
    projection, shapely's buffered point against the region polygon,
    haversine's distance in nautical miles, and numpy's [copysign] and the
    two rounded expressions of the velocity. *)
Class Geometry : Type := {
  (** [Proj("EPSG:3395")(lon, lat)] *)
  merc : float -> float -> float * float;
  (** [Point(x, y).buffer(radii).intersects(Polygon(corners))] *)
  buffer_intersects : float * float -> float -> list (float * float) -> bool;
  (** [haversine(p, q, unit='nmi')] *)
  haversine : float * float -> float * float -> float;
  (** [numpy.copysign] *)
  copysign : float -> float -> float;
  (** [int(numpy.around((360. + numpy.rad2deg(numpy.arctan2(vx, vy))) % 360, 0))] *)
  bearing_of : float -> float -> Z;
  (** [int(numpy.around(numpy.sqrt(dx ** 2 + dy ** 2) / dt, 0))] *)
  speed_of : float -> float -> float -> Z
}.

(* ================================================================== *)
(** ** DateWindow: the instance, its bounds and its windowed view      *)
(* ================================================================== *)

(** The attributes of an [NHCAdvisory] instance that the window reads and
    writes: the loaded data frame [self.__df], the two private bounds
    (absent until first assigned) and the entry that [lru_cache] keeps for
    [data_frame] of this instance. *)
Record NHCAdvisory : Type := mkNHCAdvisory {
  __df : list DataRow.t;
  __start_date : option datetime;
  __end_date : option datetime;
  data_frame_cache : option (list DataRow.t)
}.

Definition with_start_date (self : NHCAdvisory) (d : datetime) : NHCAdvisory :=
  mkNHCAdvisory (__df self) (Some d) (__end_date self) (data_frame_cache self).

Definition with_end_date (self : NHCAdvisory) (d : datetime) : NHCAdvisory :=
  mkNHCAdvisory (__df self) (__start_date self) (Some d) (data_frame_cache self).

Definition with_data_frame_cache (self : NHCAdvisory) (v : list DataRow.t) : NHCAdvisory :=
  mkNHCAdvisory (__df self) (__start_date self) (__end_date self) (Some v).

(** Reading an attribute that was never assigned. *)
Definition getattr {A : Type} (a : option A) : result A :=
  match a with
  | Some v => Ok v
  | None => Raise AttributeError
  end.

(** Modelled from the spec: the public properties [start_date] and
    [end_date] are declared by the base class [WindForcing]
    (adcircpy/forcing/winds/base.py, not among the sources). The spec has
    bounds validated "eagerly at the point bounds are set", so the getter
    reads the validated private property. *)
Definition start_date (self : NHCAdvisory) : result datetime :=
  getattr (__start_date self).

Definition end_date (self : NHCAdvisory) : result datetime :=
  getattr (__end_date self).

(** [NHCAdvisory._start_date.setter]. *)
Definition _start_date_setter (self : NHCAdvisory)
    (start_date : option datetime) : result NHCAdvisory :=
  start_date <- match start_date with
                | Some d => Ok d
                | None => py_index (column DataRow.datetime (__df self)) 0
                end ;;
  first <- py_index (column DataRow.datetime (__df self)) 0 ;;
  last <- py_index (column DataRow.datetime (__df self)) (-1) ;;
  _ <- assert ((first <=? start_date) && (start_date <? last)) ;;
  Ok (with_start_date self start_date).

(** [NHCAdvisory._end_date.setter]. *)
Definition _end_date_setter (self : NHCAdvisory)
    (end_date : option datetime) : result NHCAdvisory :=
  end_date <- match end_date with
              | Some d => Ok d
              | None => py_index (column DataRow.datetime (__df self)) (-1)
              end ;;
  first <- py_index (column DataRow.datetime (__df self)) 0 ;;
  last <- py_index (column DataRow.datetime (__df self)) (-1) ;;
  _ <- assert ((first <? end_date) && (end_date <=? last)) ;;
  current_start <- start_date self ;;
  _ <- assert (current_start <? end_date) ;;
  Ok (with_end_date self end_date).

(** Modelled from the spec: the setters of the public properties, declared
    by [WindForcing] like the getters above; assigning [self.start_date]
    or [self.end_date] assigns the validated private property. *)
Definition set_start_date (self : NHCAdvisory) (d : datetime) : result NHCAdvisory :=
  _start_date_setter self (Some d).

Definition set_end_date (self : NHCAdvisory) (d : datetime) : result NHCAdvisory :=
  _end_date_setter self (Some d).

(** [NHCAdvisory._file_end_date]: the loop returns at the first unique
    timestamp not before [end_date]; falling off its end returns [None]. *)
Fixpoint _file_end_date_loop (self : NHCAdvisory)
    (unique_dates : list datetime) : result (option datetime) :=
  match unique_dates with
  | [] => Ok None
  | date :: rest =>
      bound <- end_date self ;;
      if bound <=? date then Ok (Some date)
      else _file_end_date_loop self rest
  end.

Definition _file_end_date (self : NHCAdvisory) : result (option datetime) :=
  _file_end_date_loop self (unique (column DataRow.datetime (__df self))).

(** The rows selected by the two masks of [data_frame]. *)
Definition in_window (lo hi : datetime) (r : DataRow.t) : bool :=
  (lo <=? DataRow.datetime r) && (DataRow.datetime r <=? hi).

(** The body of [NHCAdvisory.data_frame]; comparing the column with [None]
    is a [TypeError]. *)
Definition data_frame_body (self : NHCAdvisory) : result (list DataRow.t) :=
  lo <- start_date self ;;
  marker <- _file_end_date self ;;
  match marker with
  | None => Raise TypeError
  | Some hi => Ok (filter (in_window lo hi) (__df self))
  end.

(** [NHCAdvisory.data_frame] under [@lru_cache(maxsize=None)]: the cache is
    keyed by [self] alone; a hit returns the stored value, a miss runs the
    body and stores what it returns (an exception stores nothing). *)
Definition data_frame (self : NHCAdvisory) : result (list DataRow.t * NHCAdvisory) :=
  match data_frame_cache self with
  | Some v => Ok (v, self)
  | None =>
      v <- data_frame_body self ;;
      Ok (v, with_data_frame_cache self v)
  end.

(* ================================================================== *)
(** ** Region clipping: [NHCAdvisory.clip_to_bbox]                     *)
(* ================================================================== *)

Record Bbox : Type := mkBbox {
  xmin : float;
  ymin : float;
  xmax : float;
  ymax : float
}.

Definition bbox_polygon (bbox : Bbox) : list (float * float) :=
  [ (xmin bbox, ymin bbox); (xmax bbox, ymin bbox); (xmax bbox, ymax bbox);
    (xmin bbox, ymax bbox); (xmin bbox, ymin bbox) ].

Section Clipping.
Context `{Geometry}.

(** The rows [self._df[self._df['datetime'] == _datetime]]. *)
Definition records_at (self : NHCAdvisory) (_datetime : datetime) : list DataRow.t :=
  filter (fun r => DataRow.datetime r =? _datetime) (__df self).

(** Whether the last-closed-isobar circle of the fix at [_datetime] meets
    the region: the first record's radius times 1852 around its projected
    position. [1852. * None] is a [TypeError]. *)
Definition pol_intersects (self : NHCAdvisory) (bbox_pol : list (float * float))
    (_datetime : datetime) : result bool :=
  let records := records_at self _datetime in
  radii <- py_index (column DataRow.radius_of_last_closed_isobar records) 0 ;;
  radii <- match radii with
           | Some r => Ok (1852 * r)%float
           | None => Raise TypeError
           end ;;
  lon <- py_index (column DataRow.longitude records) 0 ;;
  lat <- py_index (column DataRow.latitude records) 0 ;;
  Ok (buffer_intersects (merc lon lat) radii bbox_pol).

(** The [for _datetime in unique_dates] loop, with [_switch] and the
    instance threaded through; [continue] is the recursive call and [break]
    returns. *)
Fixpoint clip_loop (bbox_pol : list (float * float)) (unique_dates : list datetime)
    (_switch : bool) (self : NHCAdvisory) : result NHCAdvisory :=
  match unique_dates with
  | [] => Ok self
  | _datetime :: rest =>
      hit <- pol_intersects self bbox_pol _datetime ;;
      if _switch then
        if negb hit then clip_loop bbox_pol rest true self
        else
          d <- py_index (column DataRow.datetime (records_at self _datetime)) 0 ;;
          self' <- set_start_date self d ;;
          clip_loop bbox_pol rest false self'
      else
        if hit then clip_loop bbox_pol rest false self
        else
          d <- py_index (column DataRow.datetime (records_at self _datetime)) 0 ;;
          set_end_date self d
  end.

Definition clip_to_bbox (self : NHCAdvisory) (bbox : Bbox) : result NHCAdvisory :=
  clip_loop (bbox_polygon bbox) (unique (column DataRow.datetime (__df self))) true self.

End Clipping.

(* ================================================================== *)
(** ** RecordNumberer: [NHCAdvisory._generate_record_numbers]          *)
(* ================================================================== *)

(** The body of the [for i in range(1, len(self.datetime))] loop, with
    [record_number] threaded through. *)
Definition record_number_step (datetime : list datetime)
    (record_number : list Z) (i : Z) : result (list Z) :=
  cur <- py_index datetime i ;;
  prev <- py_index datetime (i - 1) ;;
  last <- py_index record_number (-1) ;;
  if cur =? prev then Ok (record_number ++ [last])
  else Ok (record_number ++ [last + 1]).

Fixpoint record_number_loop (datetime : list datetime)
    (record_number : list Z) (indices : list Z) : result (list Z) :=
  match indices with
  | [] => Ok record_number
  | i :: rest =>
      record_number' <- record_number_step datetime record_number i ;;
      record_number_loop datetime record_number' rest
  end.

(** [self.datetime] is the timestamp column of the windowed view. *)
Definition _generate_record_numbers (datetime : list datetime) : result (list Z) :=
  record_number_loop datetime [1] (range 1 (len datetime)).

(* ================================================================== *)
(** ** VelocityEstimator: [NHCAdvisory._compute_velocity]              *)
(* ================================================================== *)

(** The [data] dictionary of columns. The columns that [_df] sets to
    [None] and never fills (isotach, quadrant, the radii, the background
    pressure) are not fields here: [DataFrame] gives them [None]. *)
Module Data.
Record t : Type := mk {
  basin : list string;
  storm_number : Z;
  datetime : list Z;
  record_type : list string;
  latitude : list float;
  longitude : list float;
  max_sustained_wind_speed : list float;
  central_pressure : list float;
  development_level : list string;
  name : string;
  direction : option (list Z);
  speed : option (list Z)
}.
End Data.

(** A whole number of hours as a float: [timedelta / timedelta(hours=1)]. *)
Definition float_of_Z (z : Z) : float :=
  SF2Prim (binary_normalize prec emax z 0 false).

Section Velocity.
Context `{Geometry}.

(** Lines 410-411 (416-417) and 418-421 of the loop body: the two signed
    components, the bearing and the speed. [dx / dt] divides two Python
    floats, so a zero [dt] raises [ZeroDivisionError]; [dt] is zero exactly
    when the two timestamps are equal. *)
Definition velocity_of (dx dy : float) (hours : Z) (sx sy : float) : result (Z * Z) :=
  if hours =? 0 then Raise ZeroDivisionError
  else
    let dt := float_of_Z hours in
    let vx := copysign (dx / dt)%float sx in
    let vy := copysign (dy / dt)%float sy in
    Ok (bearing_of vx vy, speed_of dx dy dt).

(** The body of [for idx in indexes]: the pair appended to
    [data['direction']] and [data['speed']]. *)
Definition velocity_at (t : list datetime) (x y : list float)
    (indexes : list Z) (idx : Z) : result (Z * Z) :=
  last <- py_index indexes (-1) ;;
  if last + 1 <? len t then
    yi <- py_index y idx ;;
    xn <- py_index x (last + 1) ;;
    xi <- py_index x idx ;;
    yn <- py_index y (last + 1) ;;
    let dx := haversine (yi, xn) (yi, xi) in
    let dy := haversine (yn, xi) (yi, xi) in
    tn <- py_index t (last + 1) ;;
    ti <- py_index t idx ;;
    velocity_of dx dy (tn - ti) (xn - xi)%float (yn - yi)%float
  else
    first <- py_index indexes 0 ;;
    yi <- py_index y idx ;;
    xp <- py_index x (first - 1) ;;
    xi <- py_index x idx ;;
    yp <- py_index y (first - 1) ;;
    let dx := haversine (yi, xp) (yi, xi) in
    let dy := haversine (yp, xi) (yi, xi) in
    ti <- py_index t idx ;;
    tp <- py_index t (first - 1) ;;
    velocity_of dx dy (ti - tp) (xi - xp)%float (yi - yp)%float.

(** One turn of [for i, _datetime in enumerate(unique_datetimes)]. *)
Definition velocity_group (t : list datetime) (x y : list float)
    (_datetime : datetime) : result (list (Z * Z)) :=
  let indexes := where_eq t _datetime in
  mapM (velocity_at t x y indexes) indexes.

(** All the pairs, in the order in which the two loops append them. *)
Definition velocities (t : list datetime) (x y : list float) : result (list (Z * Z)) :=
  groups <- mapM (velocity_group t x y) (unique t) ;;
  Ok (concat groups).

Definition _compute_velocity (data : Data.t) : result Data.t :=
  let direction := match Data.direction data with Some l => l | None => [] end in
  let speed := match Data.speed data with Some l => l | None => [] end in
  let xy := map (fun p => merc (fst p) (snd p))
                (combine (Data.longitude data) (Data.latitude data)) in
  let x := map fst xy in
  let y := map snd xy in
  let t := Data.datetime data in
  appended <- velocities t x y ;;
  Ok (Data.mk (Data.basin data) (Data.storm_number data) (Data.datetime data)
        (Data.record_type data) (Data.latitude data) (Data.longitude data)
        (Data.max_sustained_wind_speed data) (Data.central_pressure data)
        (Data.development_level data) (Data.name data)
        (Some (direction ++ map fst appended))
        (Some (speed ++ map snd appended))).

End Velocity.

(* ================================================================== *)
(** ** AdvisoryDataset: [NHCAdvisory._df]                              *)
(* ================================================================== *)

(** What [storm.get_forecast_realtime()] returns: the forecast feed. *)
Record Forecast : Type := mkForecast {
  fhr : list Z;
  forecast_lat : list float;
  forecast_lon : list float;
  forecast_vmax : list float;
  forecast_mslp : list float;
  forecast_type : list string
}.

(** The storm object of the provider: the items that [_df] reads by key
    (the best-track feed) and the forecast feed its method returns. *)
Module Storm.
Record t : Type := mk {
  wmo_basin : list string;
  id : string;
  date : list Z;
  special : list string;
  lat : list float;
  lon : list float;
  vmax : list float;
  mslp : list float;
  type : list string;
  name : string;
  get_forecast_realtime : Forecast
}.
End Storm.

Definition digit_value (c : ascii) : option Z :=
  let n := Z.of_nat (nat_of_ascii c) in
  if (48 <=? n) && (n <=? 57) then Some (n - 48) else None.

Fixpoint parse_digits (s : string) (acc : Z) : result Z :=
  match s with
  | EmptyString => Ok acc
  | String c r =>
      match digit_value c with
      | Some d => parse_digits r (10 * acc + d)
      | None => Raise ValueError
      end
  end.

(** [int(s)] of a string of decimal digits; [ValueError] otherwise. *)
Definition int_of_str (s : string) : result Z :=
  match s with
  | EmptyString => Raise ValueError
  | _ => parse_digits s 0
  end.

Definition same_length {A : Type} (n : nat) (l : list A) : bool :=
  Nat.eqb (List.length l) n.

Definition same_length_opt {A : Type} (n : nat) (l : option (list A)) : bool :=
  match l with
  | Some l => same_length n l
  | None => true
  end.

(** [DataFrame(data=data)]: one row per position of the list columns, the
    scalars repeated on every row; lists of different lengths are a
    [ValueError]. *)
Definition DataFrame (data : Data.t) : result (list DataRow.t) :=
  let n := List.length (Data.datetime data) in
  if same_length n (Data.basin data) && same_length n (Data.record_type data)
     && same_length n (Data.latitude data) && same_length n (Data.longitude data)
     && same_length n (Data.max_sustained_wind_speed data)
     && same_length n (Data.central_pressure data)
     && same_length n (Data.development_level data)
     && same_length_opt n (Data.direction data)
     && same_length_opt n (Data.speed data)
  then
    Ok (map (fun k =>
               DataRow.mk (nth k (Data.basin data) EmptyString)
                 (Data.storm_number data)
                 (nth k (Data.datetime data) 0)
                 (nth k (Data.record_type data) EmptyString)
                 (nth k (Data.latitude data) 0%float)
                 (nth k (Data.longitude data) 0%float)
                 (nth k (Data.max_sustained_wind_speed data) 0%float)
                 (nth k (Data.central_pressure data) 0%float)
                 (nth_error (Data.development_level data) k)
                 None None None None None None None None None
                 (Data.name data)
                 (match Data.direction data with
                  | Some l => nth_error l k
                  | None => None
                  end)
                 (match Data.speed data with
                  | Some l => nth_error l k
                  | None => None
                  end))
            (seq 0 n))
  else Raise ValueError.

Section Dataset.
Context `{Geometry}.

(** The dictionary that [_df] builds twice, both times from the items of
    [self.storm]. *)
Definition storm_data (storm : Storm.t) : result Data.t :=
  storm_number <- int_of_str (substring 2 2 (Storm.id storm)) ;;
  Ok (Data.mk (Storm.wmo_basin storm) storm_number (Storm.date storm)
        (Storm.special storm) (Storm.lat storm) (Storm.lon storm)
        (Storm.vmax storm) (Storm.mslp storm) (Storm.type storm)
        (Storm.name storm) None None).

(** [NHCAdvisory._df], on its first read (the [except AttributeError]
    branch); later reads return the stored frame. *)
Definition _df (storm : Storm.t) : result (list DataRow.t) :=
  historic_data <- storm_data storm ;;
  historic_data <- _compute_velocity historic_data ;;
  let forecast := Storm.get_forecast_realtime storm in
  forecast_data <- storm_data storm ;;
  forecast_data <- _compute_velocity forecast_data ;;
  DataFrame historic_data.

End Dataset.

(* ================================================================== *)
(** ** TrackLineEncoder: [NHCAdvisory.fort22]                          *)
(* ================================================================== *)

(** A value that is either an int or the empty string. *)
Inductive cell : Type :=
| Blank
| Int (z : Z).

Definition cell_str (c : cell) : string :=
  match c with
  | Blank => EmptyString
  | Int z => str z
  end.

(** [int(v) if v is not None else ""]. *)
Definition int_or_blank (v : option float) : result cell :=
  match v with
  | Some x => z <- py_int x ;; Ok (Int z)
  | None => Ok Blank
  end.

Definition str_or_blank (v : option string) : string :=
  match v with
  | Some s => s
  | None => EmptyString
  end.

(** 0.1 as a binary64 float. *)
Definition tenth : float := 0x1.999999999999ap-4%float.

(** Lines 252-255. *)
Definition fort22_longitude (longitude : float) : result string :=
  if (0 <=? longitude)%float then
    n <- py_int (longitude / tenth)%float ;;
    Ok (format AlignRight 5 (str n) ++ "E")%string
  else
    n <- py_int (longitude / - tenth)%float ;;
    Ok (format AlignRight 5 (str n) ++ "W")%string.

(** Lines 256-259. *)
Definition fort22_latitude (latitude : float) : result string :=
  if (0 <=? latitude)%float then
    n <- py_int (latitude / tenth)%float ;;
    Ok (format AlignRight 4 (str n) ++ "N")%string
  else
    n <- py_int (latitude / - tenth)%float ;;
    Ok (format AlignRight 4 (str n) ++ "S")%string.

(** Lines 263-275: the background pressure of row [i] of the windowed
    view. [row] is the copy that [iterrows] yields, so
    [self.data_frame['background_pressure']] still holds the values as
    loaded; [int(None)] is a [TypeError]. *)
Definition fort22_background_pressure (data_frame : list DataRow.t) (i : Z)
    (row : DataRow.t) : result cell :=
  background_pressure <-
    match DataRow.background_pressure row with
    | None => py_index (column DataRow.background_pressure data_frame) (i - 1)
    | Some b => Ok (Some b)
    end ;;
  match background_pressure with
  | Some b =>
      let p := DataRow.central_pressure row in
      if (b <=? p)%float && (p <? 1013)%float then Ok (Int 1013)
      else if (b <=? p)%float && (1013 <=? p)%float then
        z <- py_int (p + 1)%float ;; Ok (Int z)
      else
        match DataRow.background_pressure row with
        | Some own => z <- py_int own ;; Ok (Int z)
        | None => Raise TypeError
        end
  | None => Ok Blank
  end.

(** [f'{v:>w}'] of a value with no [__format__] for the spec, such as
    [None]. *)
Definition format_required (w : nat) (v : option Z) : result string :=
  match v with
  | Some z => Ok (format AlignRight w (str z))
  | None => Raise TypeError
  end.

(** The list that the loop body hands to [row.extend], for row [i] of the
    windowed view. The entry after the sixteenth comma of the source has no
    comma before the next literal, so the two are one entry. *)
Definition fort22_fields (self : NHCAdvisory) (data_frame : list DataRow.t)
    (record_number : list Z) (i : Z) (row : DataRow.t) : result (list string) :=
  longitude <- fort22_longitude (DataRow.longitude row) ;;
  latitude <- fort22_latitude (DataRow.latitude row) ;;
  background_pressure <- fort22_background_pressure data_frame i row ;;
  window_start <- start_date self ;;
  vmax <- py_int (DataRow.max_sustained_wind_speed row) ;;
  mslp <- py_int (DataRow.central_pressure row) ;;
  isotach <- int_or_blank (DataRow.isotach row) ;;
  rad1 <- int_or_blank (DataRow.radius_for_NEQ row) ;;
  rad2 <- int_or_blank (DataRow.radius_for_SEQ row) ;;
  rad3 <- int_or_blank (DataRow.radius_for_SWQ row) ;;
  rad4 <- int_or_blank (DataRow.radius_for_NWQ row) ;;
  rrp <- int_or_blank (DataRow.radius_of_last_closed_isobar row) ;;
  mrd <- int_or_blank (DataRow.radius_of_maximum_winds row) ;;
  speed <- format_required 4 (DataRow.speed row) ;;
  number <- py_index record_number i ;;
  Ok [ format AlignLeft 2 (DataRow.basin row);
       format AlignRight 3 (str (DataRow.storm_number row));
       format AlignRight 11 (strftime_YmdH (DataRow.datetime row));
       format AlignLeft 3 EmptyString;
       format AlignRight 5 (DataRow.record_type row);
       format AlignRight 4 (str (DataRow.datetime row - window_start));
       format AlignRight 5 latitude;
       format AlignRight 5 longitude;
       format AlignRight 4 (str vmax);
       format AlignRight 5 (str mslp);
       format AlignRight 3 (str_or_blank (DataRow.development_level row));
       format AlignRight 4 (cell_str isotach);
       format AlignRight 4 (str_or_blank (DataRow.quadrant row));
       format AlignRight 5 (cell_str rad1);
       format AlignRight 5 (cell_str rad2);
       format AlignRight 5 (cell_str rad3);
       format AlignRight 5 (cell_str rad4);
       format AlignRight 5 (cell_str background_pressure);
       format AlignRight 5 (cell_str rrp);
       (format AlignRight 4 (cell_str mrd) ++ format AlignRight 5 EmptyString)%string;
       format AlignRight 4 EmptyString;
       format AlignRight 4 EmptyString;
       format AlignRight 4 EmptyString;
       format AlignRight 4 EmptyString;
       format AlignRight 3
         (match DataRow.direction row with Some d => str d | None => EmptyString end);
       speed;
       format AlignCenter 12 (DataRow.name row);
       format AlignRight 4 (str number) ].

(** [','.join(fields)]. *)
Fixpoint join (sep : string) (fields : list string) : string :=
  match fields with
  | [] => EmptyString
  | [f] => f
  | f :: rest => (f ++ sep ++ join sep rest)%string
  end.

Definition newline : string := String (ascii_of_nat 10) EmptyString.

Fixpoint enumerate_from {A : Type} (k : Z) (l : list A) : list (Z * A) :=
  match l with
  | [] => []
  | a :: r => (k, a) :: enumerate_from (k + 1) r
  end.

(** [NHCAdvisory.fort22]. The loop collects its fields with [row.extend]
    and joins [row] with commas. [row] is the pandas Series of [iterrows],
    which has no [extend]; the line is taken to be what the body formats:
    its fields, joined. Reading [self.data_frame] may fill the cache, so
    the instance is returned with the text. *)
Definition fort22 (self : NHCAdvisory) : result (string * NHCAdvisory) :=
  view <- data_frame self ;;
  let df := fst view in
  let self := snd view in
  record_number <- _generate_record_numbers (column DataRow.datetime df) ;;
  lines <- mapM (fun ir =>
                   fields <- fort22_fields self df record_number (fst ir) (snd ir) ;;
                   Ok (join "," fields ++ newline)%string)
                (enumerate_from 0 df) ;;
  Ok (String.concat EmptyString lines, self).


(** A stand-in for the collaborators, to run the definitions on concrete
    rows: a flat projection, a circle that meets the region when its radius
    in metres is at least 1852, and taxicab distances. *)
Definition flat_geometry : Geometry := {|
  merc := fun lon lat => (lon, lat);
  buffer_intersects := fun _ radii _ => (1852 <=? radii)%float;
  haversine := fun p q => (abs (fst p - fst q) + abs (snd p - snd q))%float;
  copysign := fun a b => if (b <? 0)%float then (- abs a)%float else abs a;
  bearing_of := fun vx vy => if (vx <? 0)%float then 270 else 90;
  speed_of := fun dx dy dt => match py_int ((dx + dy) / dt)%float with
                              | Ok z => z
                              | Raise _ => 0
                              end
|}.

(* ================================================================== *)
(** ** Auxiliary definitions of the statements, and sample data        *)
(* ================================================================== *)

(** The ids that follow a row with timestamp [prev] and id [id]. *)
Fixpoint number_from (prev : datetime) (id : Z) (rest : list datetime) : list Z :=
  match rest with
  | [] => []
  | d :: r =>
      let id' := if d =? prev then id else id + 1 in
      id' :: number_from d id' r
  end.

(** The time difference, in hours, that the loop body of
    [_compute_velocity] divides by for the fix at [idx] of the group
    [indexes]: to the fix after the group, or from the fix before it when
    the group ends the column. *)
Definition reference_hours (t : list datetime) (indexes : list Z) (idx : Z) : result Z :=
  last <- py_index indexes (-1) ;;
  if last + 1 <? len t then
    tn <- py_index t (last + 1) ;;
    ti <- py_index t idx ;;
    Ok (tn - ti)
  else
    first <- py_index indexes 0 ;;
    ti <- py_index t idx ;;
    tp <- py_index t (first - 1) ;;
    Ok (ti - tp).

(** The same for the fix of row [i], whose group is the rows of its
    timestamp. *)
Definition fix_hours (t : list datetime) (i : nat) : result Z :=
  match nth_error t i with
  | Some d => reference_hours t (where_eq t d) (Z.of_nat i)
  | None => Raise IndexError
  end.

(** The direction and the speed that the columns of [data] hold for row
    [i]. *)
Definition direction_at (data : Data.t) (i : nat) : option Z :=
  match Data.direction data with
  | Some l => nth_error l i
  | None => None
  end.

Definition speed_at (data : Data.t) (i : nat) : option Z :=
  match Data.speed data with
  | Some l => nth_error l i
  | None => None
  end.

(** A storm whose best-track feed has two fixes, at hours 0 and 6, and
    whose forecast feed has two more, 12 and 24 hours ahead. *)
Definition sample_storm : Storm.t :=
  Storm.mk ["NA"; "NA"]%string "AL092020" [0; 6] [""; ""]%string
    [25; 26]%float [-80; -79]%float [35; 40]%float [1005; 1000]%float
    ["TD"; "TS"]%string "ISAIAS"
    (mkForecast [12; 24] [27; 28]%float [-78; -77]%float [45; 50]%float
       [995; 990]%float ["TS"; "TS"]%string).

(** A storm with two records for hour 0, at one position. *)
Definition repeated_storm : Storm.t :=
  Storm.mk ["NA"; "NA"; "NA"]%string "AL092020" [0; 0; 6] [""; ""; ""]%string
    [25; 25; 26]%float [-80; -80; -79]%float [35; 35; 40]%float
    [1005; 1005; 1000]%float ["TD"; "TD"; "TS"]%string "ISAIAS"
    (mkForecast [] [] [] [] [] []).

(** Columns with the given timestamps, every fix at one position. *)
Definition still_data (t : list datetime) : Data.t :=
  Data.mk (map (fun _ => "NA"%string) t) 9 t (map (fun _ => ""%string) t)
    (map (fun _ => 25%float) t) (map (fun _ => (-80)%float) t)
    (map (fun _ => 35%float) t) (map (fun _ => 1005%float) t)
    (map (fun _ => "TD"%string) t) "ISAIAS" None None.

(** The frame that [_df] builds for [repeated_storm] under
    [flat_geometry]. *)
Definition repeated_frame : list DataRow.t :=
  Eval vm_compute in
    match @_df flat_geometry repeated_storm with
    | Ok df => df
    | Raise _ => []
    end.


(** A row with central pressure [p] and background pressure [b]. *)
Definition pressure_row (p : float) (b : option float) : DataRow.t :=
  DataRow.mk "AL" 9 0 "BEST" 25 (-80) 35 p (Some "TS"%string)
    None None None None None None b None None "LAURA" None (Some 0).

(** A best-track row at timestamp [t], position [(lon, lat)], with the
    given radius of the last closed isobar and background pressure. *)
Definition sample_row (t : datetime) (lon lat : float)
    (radius pressure : option float) : DataRow.t :=
  DataRow.mk "AL" 9 t "BEST" lat lon 35 1000 (Some "TS"%string)
    None None None None None None pressure radius None "LAURA" None (Some 0).

(** Four six-hourly rows; the loaded frame of the sample instances. *)
Definition sample_frame : list DataRow.t :=
  [ sample_row 0 (-80) 25 (Some 0%float) None;
    sample_row 6 (-79) 26 (Some 1%float) None;
    sample_row 12 (-78) 27 (Some 1%float) None;
    sample_row 18 (-77) 28 (Some 0%float) None ].

Definition sample_advisory : NHCAdvisory :=
  mkNHCAdvisory sample_frame (Some 0) (Some 18) None.

(** A region around every sample position. On the sample frames
    [flat_geometry] answers as the libraries do: a radius of 0 buffers the
    point to the empty polygon, which meets nothing, and a circle of
    positive radius whose centre lies in the region meets it. *)
Definition sample_bbox : Bbox := mkBbox (-10000000) 0 0 10000000.

(** The storm enters the region at the last timestamp. *)
Definition late_entry_advisory : NHCAdvisory :=
  mkNHCAdvisory
    [ sample_row 0 (-80) 25 (Some 0%float) None;
      sample_row 6 (-79) 26 (Some 1%float) None ]
    (Some 0) (Some 6) None.

(** The storm enters the region at hour 6 and is still inside at the end. *)
Definition inside_advisory : NHCAdvisory :=
  mkNHCAdvisory
    [ sample_row 0 (-80) 25 (Some 0%float) None;
      sample_row 6 (-79) 26 (Some 1%float) None;
      sample_row 12 (-78) 27 (Some 1%float) None ]
    (Some 0) (Some 12) None.


(* ================================================================== *)
(** ** Further operations of the class                                 *)
(* ================================================================== *)

(** [NHCAdvisory.basin], [storm_number] and [year]: the entry of the
    first row of the windowed view. Reading the view may fill the cache,
    so the instance is returned with the value. The three share their
    names with columns of a row, so they have a name space of their own. *)
Module Advisory.

Definition basin (self : NHCAdvisory) : result (string * NHCAdvisory) :=
  view <- data_frame self ;;
  b <- py_index (column DataRow.basin (fst view)) 0 ;;
  Ok (b, snd view).

Definition storm_number (self : NHCAdvisory) : result (Z * NHCAdvisory) :=
  view <- data_frame self ;;
  n <- py_index (column DataRow.storm_number (fst view)) 0 ;;
  Ok (n, snd view).


End Advisory.

(** The two private factors of the instance, absent until assigned. *)
Record Factors : Type := mkFactors {
  __BLADj : option float;
  __geofactor : option float
}.

(** 0.9 as a binary64 float. *)
Definition nine_tenths : float := 0x1.ccccccccccccdp-1%float.

(** [NHCAdvisory.BLADj] and [NHCAdvisory.geofactor]: the assigned value,
    or the default when the attribute is absent. *)
Definition BLADj (f : Factors) : float :=
  match __BLADj f with
  | Some v => v
  | None => nine_tenths
  end.

Definition geofactor (f : Factors) : float :=
  match __geofactor f with
  | Some v => v
  | None => 1%float
  end.

(** The two setters, on a value that [float()] has converted. *)
Definition BLADj_setter (f : Factors) (v : float) : result Factors :=
  _ <- assert ((0 <=? v)%float && (v <=? 1)%float) ;;
  Ok (mkFactors (Some v) (__geofactor f)).

Definition geofactor_setter (f : Factors) (v : float) : result Factors :=
  _ <- assert ((0 <=? v)%float && (v <=? 1)%float) ;;
  Ok (mkFactors (__BLADj f) (Some v)).

(** A run of setter calls, each one either assigning or raising and
    leaving the factors as they were. *)
Inductive factor_call : Type :=
| SetBLADj (v : float)
| SetGeofactor (v : float).

Definition factor_step (f : Factors) (c : factor_call) : Factors :=
  match (match c with
         | SetBLADj v => BLADj_setter f v
         | SetGeofactor v => geofactor_setter f v
         end) with
  | Ok f' => f'
  | Raise _ => f
  end.






(** An instance on the frame [df] whose bounds are not assigned yet. *)
Definition fresh_advisory (df : list DataRow.t) : NHCAdvisory :=
  mkNHCAdvisory df None None None.





(** A storm whose best-track feed has a single fix. *)
Definition single_fix_storm : Storm.t :=
  Storm.mk ["NA"]%string "AL092020" [0] [""]%string [25]%float [-80]%float
    [35]%float [1005]%float ["TD"]%string "ISAIAS"
    (mkForecast [] [] [] [] [] []).

(** The sample frame with every circle of radius 0: the storm stays out of
    the sample region. *)
Definition outside_advisory : NHCAdvisory :=
  mkNHCAdvisory
    [ sample_row 0 (-80) 25 (Some 0%float) None;
      sample_row 6 (-79) 26 (Some 0%float) None;
      sample_row 12 (-78) 27 (Some 0%float) None ]
    (Some 0) (Some 12) None.

(* ================================================================== *)
(** * Properties                                                       *)
(* ================================================================== *)

(** ** Sequences *)

Section PySequences.
Context {A : Type}.

Lemma len_app (l1 l2 : list A) : len (l1 ++ l2) = len l1 + len l2.
Proof. unfold len. rewrite length_app. lia. Qed.

Lemma py_index_nat (l : list A) (k : nat) (a : A) :
  nth_error l k = Some a -> py_index l (Z.of_nat k) = Ok a.
Proof.
  intros E. unfold py_index.
  assert (Hk : (Z.of_nat k <? 0) = false) by (apply Z.ltb_ge; lia).
  rewrite Hk. cbv beta iota zeta. rewrite Hk, Nat2Z.id, E. reflexivity.
Qed.

Lemma py_index_middle (pre post : list A) (a : A) :
  py_index (pre ++ a :: post) (len pre) = Ok a.
Proof.
  apply py_index_nat. rewrite nth_error_app2, Nat.sub_diag by lia. reflexivity.
Qed.

Lemma py_index_last (l : list A) (a : A) : py_index (l ++ [a]) (-1) = Ok a.
Proof.
  unfold py_index. rewrite len_app. unfold len. cbn [List.length].
  change (-1 <? 0) with true. cbv beta iota zeta.
  assert (Hj : (Z.of_nat (List.length l) + Z.of_nat 1 + -1 <? 0) = false)
    by (apply Z.ltb_ge; lia).
  rewrite Hj.
  replace (Z.to_nat (Z.of_nat (List.length l) + Z.of_nat 1 + -1))
    with (List.length l) by lia.
  rewrite nth_error_app2, Nat.sub_diag by lia. reflexivity.
Qed.

Lemma py_index_head (a : A) (l : list A) : py_index (a :: l) 0 = Ok a.
Proof. reflexivity. Qed.

Lemma py_index_minus_one_ok (a : A) (l : list A) :
  py_index (a :: l) (-1) = Ok (last (a :: l) a).
Proof.
  destruct (@exists_last _ (a :: l)) as [front [z E]]; [discriminate|].
  rewrite E, py_index_last, last_last. reflexivity.
Qed.

End PySequences.

Lemma range_cons (a b : Z) : a < b -> range a b = a :: range (a + 1) b.
Proof.
  intros Hlt. unfold range.
  replace (Z.to_nat (b - a)) with (S (Z.to_nat (b - (a + 1)))) by lia.
  cbn [seq map]. f_equal; [lia|].
  rewrite <- seq_shift, map_map. apply map_ext. intros k. lia.
Qed.

Lemma range_nil (a b : Z) : b <= a -> range a b = [].
Proof.
  intros Hle. unfold range.
  replace (Z.to_nat (b - a)) with 0%nat by lia. reflexivity.
Qed.

(** ** RecordNumberer *)

Lemma record_number_loop_spec (datetime : list datetime) :
  forall rest pre prev acc last,
    datetime = pre ++ prev :: rest ->
    record_number_loop datetime (acc ++ [last])
      (range (len (pre ++ [prev])) (len datetime))
    = Ok ((acc ++ [last]) ++ number_from prev last rest).
Proof.
  induction rest as [|d r IH]; intros pre prev acc last E.
  - rewrite range_nil by (subst datetime; rewrite !len_app; unfold len; cbn; lia).
    cbn. rewrite app_nil_r. reflexivity.
  - rewrite range_cons
      by (subst datetime; rewrite !len_app; unfold len; cbn [List.length]; lia).
    cbn [record_number_loop]. unfold record_number_step.
    assert (Hcur : py_index datetime (len (pre ++ [prev])) = Ok d).
    { subst datetime.
      replace (pre ++ prev :: d :: r) with ((pre ++ [prev]) ++ d :: r)
        by (rewrite <- app_assoc; reflexivity).
      apply py_index_middle. }
    assert (Hprev : py_index datetime (len (pre ++ [prev]) - 1) = Ok prev).
    { subst datetime. replace (len (pre ++ [prev]) - 1) with (len pre)
        by (rewrite len_app; unfold len; cbn; lia).
      apply py_index_middle. }
    rewrite Hcur, Hprev, py_index_last. cbn [bind].
    assert (Hnext : len (pre ++ [prev]) + 1 = len ((pre ++ [prev]) ++ [d]))
      by (rewrite !len_app; unfold len; cbn; lia).
    rewrite Hnext.
    assert (E' : datetime = (pre ++ [prev]) ++ d :: r)
      by (rewrite <- app_assoc; exact E).
    cbn [number_from].
    destruct (d =? prev).
    + cbn [bind]. rewrite (IH (pre ++ [prev]) d (acc ++ [last]) last E').
      rewrite <- !app_assoc. reflexivity.
    + cbn [bind]. rewrite (IH (pre ++ [prev]) d (acc ++ [last]) (last + 1) E').
      rewrite <- !app_assoc. reflexivity.
Qed.

Lemma generate_record_numbers_cons (d : datetime) (rest : list datetime) :
  _generate_record_numbers (d :: rest) = Ok (1 :: number_from d 1 rest).
Proof.
  unfold _generate_record_numbers.
  exact (record_number_loop_spec (d :: rest) rest [] d [] 1 eq_refl).
Qed.

Lemma number_from_length (rest : list datetime) :
  forall prev id, List.length (number_from prev id rest) = List.length rest.
Proof.
  induction rest as [|d r IH]; intros prev id; cbn; [reflexivity|].
  rewrite IH. reflexivity.
Qed.

Lemma number_from_step (rest : list datetime) :
  forall prev id i cur before prev_id,
    nth_error (prev :: rest) (S i) = Some cur ->
    nth_error (prev :: rest) i = Some before ->
    nth_error (id :: number_from prev id rest) i = Some prev_id ->
    nth_error (id :: number_from prev id rest) (S i)
    = Some (if cur =? before then prev_id else prev_id + 1).
Proof.
  induction rest as [|d r IH]; intros prev id i cur before prev_id Hc Hb Hi.
  - destruct i; cbn in Hc; discriminate.
  - destruct i as [|i].
    + cbn in Hc, Hb, Hi. inversion Hc; inversion Hb; inversion Hi; subst.
      reflexivity.
    + cbn [number_from]. cbn [nth_error] in Hc, Hb, Hi |- *.
      apply IH; assumption.
Qed.

Lemma nth_error_in_range {A : Type} (l : list A) (i : nat) :
  (i < List.length l)%nat -> exists a, nth_error l i = Some a.
Proof.
  intros Hi. destruct (nth_error l i) as [a|] eqn:E; [exists a; reflexivity|].
  apply nth_error_None in E. lia.
Qed.

(** C7. For a non-empty time-ordered sequence of rows the record numberer
    returns one id per row: the first id is 1, and each later row has the
    id of the row before it when the two timestamps are equal and that id
    plus one otherwise; hence consecutive ids never decrease and differ by
    0 or 1. Three rows with one timestamp followed by a row with another
    are numbered [1; 1; 1; 2]. *)
Theorem generate_record_numbers_correct :
  (forall dts : list datetime,
      dts <> [] ->
      exists ids,
        _generate_record_numbers dts = Ok ids /\
        List.length ids = List.length dts /\
        nth_error ids 0 = Some 1 /\
        (forall i cur before prev_id,
            nth_error dts (S i) = Some cur ->
            nth_error dts i = Some before ->
            nth_error ids i = Some prev_id ->
            nth_error ids (S i)
            = Some (if cur =? before then prev_id else prev_id + 1)) /\
        (forall i a b,
            nth_error ids i = Some a ->
            nth_error ids (S i) = Some b ->
            a <= b /\ (b - a = 0 \/ b - a = 1)))
  /\ (forall t t' : datetime,
         t <> t' -> _generate_record_numbers [t; t; t; t'] = Ok [1; 1; 1; 2]).
Proof.
  split.
  - intros dts Hne. destruct dts as [|d rest]; [congruence|].
    exists (1 :: number_from d 1 rest).
    assert (Hlen : List.length (1 :: number_from d 1 rest) = List.length (d :: rest))
      by (cbn; rewrite number_from_length; reflexivity).
    split; [apply generate_record_numbers_cons|].
    split; [exact Hlen|].
    split; [reflexivity|].
    split; [intros i cur before prev_id; apply number_from_step|].
    intros i a b Ha Hb.
    assert (Hi : (S i < List.length (d :: rest))%nat).
    { rewrite <- Hlen. apply nth_error_Some. congruence. }
    destruct (nth_error_in_range (d :: rest) (S i) Hi) as [cur Hcur].
    destruct (nth_error_in_range (d :: rest) i) as [before Hbefore]; [lia|].
    pose proof (number_from_step rest d 1 i cur before a Hcur Hbefore Ha) as Hstep.
    rewrite Hb in Hstep. inversion Hstep as [Hval].
    destruct (cur =? before); lia.
  - intros t t' Hneq. rewrite generate_record_numbers_cons. cbn.
    rewrite Z.eqb_refl.
    destruct (Z.eqb_spec t' t) as [E|_]; [congruence|]. reflexivity.
Qed.

Lemma generate_record_numbers_witness :
  exists ids,
    _generate_record_numbers [5; 5; 5; 9] = Ok ids /\ List.length ids = 4%nat.
Proof.
  destruct (proj1 generate_record_numbers_correct [5; 5; 5; 9])
    as [ids [Hrun [Hlen _]]].
  - discriminate.
  - exists ids. split; assumption.
Defined.

(** ** DateWindow: validated bounds *)

Lemma set_start_date_iff (self : NHCAdvisory) (first last d : datetime) :
  py_index (column DataRow.datetime (__df self)) 0 = Ok first ->
  py_index (column DataRow.datetime (__df self)) (-1) = Ok last ->
  set_start_date self d
  = if (first <=? d) && (d <? last) then Ok (with_start_date self d)
    else Raise AssertionError.
Proof.
  intros Hfirst Hlast. unfold set_start_date, _start_date_setter.
  cbn [bind]. rewrite Hfirst, Hlast. cbn [bind].
  destruct ((first <=? d) && (d <? last)); reflexivity.
Qed.

Lemma set_end_date_iff (self : NHCAdvisory) (first last s d : datetime) :
  py_index (column DataRow.datetime (__df self)) 0 = Ok first ->
  py_index (column DataRow.datetime (__df self)) (-1) = Ok last ->
  __start_date self = Some s ->
  set_end_date self d
  = if (first <? d) && (d <=? last) && (s <? d) then Ok (with_end_date self d)
    else Raise AssertionError.
Proof.
  intros Hfirst Hlast Hs. unfold set_end_date, _end_date_setter, start_date.
  cbn [bind]. rewrite Hfirst, Hlast, Hs. cbn [bind getattr].
  destruct ((first <? d) && (d <=? last)); cbn [assert bind andb]; [|reflexivity].
  destruct (s <? d); reflexivity.
Qed.

(** C8. Each bound is validated when it is set, against the first and the
    last timestamp of the dataset: [start_date] is stored exactly when
    [first <= start_date < last], [end_date] exactly when
    [first < end_date <= last] and [end_date] is after the current
    [start_date]; any other value fails on the spot with the assertion
    error of the setter, the validation error of the spec. In particular
    setting [start_date] to the last timestamp fails. *)
Theorem window_bounds_validated (self : NHCAdvisory) (first last : datetime) :
  py_index (column DataRow.datetime (__df self)) 0 = Ok first ->
  py_index (column DataRow.datetime (__df self)) (-1) = Ok last ->
  (forall d,
      (first <= d < last -> set_start_date self d = Ok (with_start_date self d)) /\
      (~ first <= d < last -> set_start_date self d = Raise AssertionError)) /\
  (forall s d,
      __start_date self = Some s ->
      (first < d <= last /\ s < d ->
       set_end_date self d = Ok (with_end_date self d)) /\
      (~ (first < d <= last /\ s < d) ->
       set_end_date self d = Raise AssertionError)) /\
  set_start_date self last = Raise AssertionError.
Proof.
  intros Hfirst Hlast. split; [|split].
  - intros d. rewrite (set_start_date_iff self first last d Hfirst Hlast).
    destruct (Z.leb_spec first d), (Z.ltb_spec d last); cbn [andb];
      split; intros Hd; try reflexivity; lia.
  - intros s d Hs. rewrite (set_end_date_iff self first last s d Hfirst Hlast Hs).
    destruct (Z.ltb_spec first d), (Z.leb_spec d last), (Z.ltb_spec s d);
      cbn [andb]; split; intros Hd; try reflexivity; lia.
  - rewrite (set_start_date_iff self first last last Hfirst Hlast).
    rewrite Z.ltb_irrefl, andb_false_r. reflexivity.
Qed.

Lemma window_bounds_validated_witness :
  set_start_date sample_advisory 6 = Ok (with_start_date sample_advisory 6) /\
  set_end_date sample_advisory 0 = Raise AssertionError /\
  set_start_date sample_advisory 18 = Raise AssertionError.
Proof.
  destruct (window_bounds_validated sample_advisory 0 18 eq_refl eq_refl)
    as [Hstart [Hend Hlast]].
  split; [|split].
  - apply (proj1 (Hstart 6)). lia.
  - apply (proj2 (Hend 0 0 eq_refl)). lia.
  - exact Hlast.
Defined.

(** ** [numpy.unique] *)

Lemma unique_insert_In (d x : datetime) (l : list datetime) :
  In x (unique_insert d l) <-> x = d \/ In x l.
Proof.
  induction l as [|h r IH]; cbn.
  - intuition congruence.
  - destruct (Z.ltb_spec d h) as [Hlt|Hge]; cbn.
    + intuition congruence.
    + destruct (Z.eqb_spec d h) as [E|Hne]; cbn.
      * subst h. intuition congruence.
      * rewrite IH. intuition congruence.
Qed.

Lemma unique_In (x : datetime) (t : list datetime) : In x (unique t) <-> In x t.
Proof.
  induction t as [|h r IH]; cbn; [reflexivity|].
  rewrite unique_insert_In, IH. intuition congruence.
Qed.

Lemma unique_insert_sorted (d : datetime) (l : list datetime) :
  StronglySorted Z.lt l -> StronglySorted Z.lt (unique_insert d l).
Proof.
  induction l as [|h r IH]; intros Hs; cbn.
  - repeat constructor.
  - inversion Hs as [|? ? Hr Hall]; subst.
    destruct (Z.ltb_spec d h) as [Hlt|Hge].
    + constructor; [exact Hs|]. constructor; [exact Hlt|].
      rewrite Forall_forall in Hall |- *. intros y Hy. specialize (Hall y Hy). lia.
    + destruct (Z.eqb_spec d h) as [E|Hne]; [exact Hs|].
      constructor; [apply IH; exact Hr|].
      rewrite Forall_forall in Hall |- *. intros y Hy.
      apply unique_insert_In in Hy. destruct Hy as [->|Hy]; [lia|].
      apply Hall; exact Hy.
Qed.

Lemma unique_sorted (t : list datetime) : StronglySorted Z.lt (unique t).
Proof.
  induction t as [|h r IH]; cbn; [constructor|].
  apply unique_insert_sorted; exact IH.
Qed.

(** ** DateWindow: the windowed view and its cache *)

(** On a strictly increasing list the loop of [_file_end_date] returns the
    least element that is not before [end_date]. *)
Lemma file_end_date_loop_least (self : NHCAdvisory) (e m : datetime) :
  __end_date self = Some e ->
  forall dates,
    StronglySorted Z.lt dates ->
    In m dates -> e <= m ->
    (forall d, In d dates -> e <= d -> m <= d) ->
    _file_end_date_loop self dates = Ok (Some m).
Proof.
  intros He dates. induction dates as [|h r IH]; intros Hs Hin Hem Hleast.
  - destruct Hin.
  - cbn [_file_end_date_loop]. unfold end_date. rewrite He. cbn [getattr bind].
    inversion Hs as [|? ? Hr Hall]; subst.
    rewrite Forall_forall in Hall.
    destruct (Z.leb_spec e h) as [Hle|Hgt].
    + destruct Hin as [->|Hin]; [reflexivity|].
      specialize (Hall m Hin). specialize (Hleast h (or_introl eq_refl) Hle). lia.
    + destruct Hin as [->|Hin]; [lia|].
      apply IH; auto. intros d Hd. apply Hleast. right; exact Hd.
Qed.

Lemma file_end_date_least (self : NHCAdvisory) (e m : datetime) :
  __end_date self = Some e ->
  In m (column DataRow.datetime (__df self)) -> e <= m ->
  (forall d, In d (column DataRow.datetime (__df self)) -> e <= d -> m <= d) ->
  _file_end_date self = Ok (Some m).
Proof.
  intros He Hin Hem Hleast. unfold _file_end_date.
  apply (file_end_date_loop_least self e m He).
  - apply unique_sorted.
  - apply unique_In; exact Hin.
  - exact Hem.
  - intros d Hd. apply Hleast. apply unique_In; exact Hd.
Qed.

Lemma data_frame_cached (self : NHCAdvisory) (view : list DataRow.t) :
  data_frame_cache self = Some view -> data_frame self = Ok (view, self).
Proof. intros Hc. unfold data_frame. rewrite Hc. reflexivity. Qed.

Lemma data_frame_fills_cache (self self1 : NHCAdvisory) (view : list DataRow.t) :
  data_frame self = Ok (view, self1) -> data_frame_cache self1 = Some view.
Proof.
  unfold data_frame. destruct (data_frame_cache self) as [v|] eqn:Hc.
  - intros E. inversion E; subst. exact Hc.
  - destruct (data_frame_body self) as [v|e]; cbn [bind]; intros E;
      inversion E; subst. reflexivity.
Qed.

Lemma set_start_date_frame (self self' : NHCAdvisory) (d : datetime) :
  set_start_date self d = Ok self' ->
  self' = with_start_date self d.
Proof.
  unfold set_start_date, _start_date_setter. cbn [bind].
  destruct (py_index (column DataRow.datetime (__df self)) 0); cbn [bind]; [|discriminate].
  destruct (py_index (column DataRow.datetime (__df self)) (-1)); cbn [bind]; [|discriminate].
  destruct (assert _); cbn [bind]; [|discriminate].
  intros E; inversion E; reflexivity.
Qed.

Lemma set_end_date_frame (self self' : NHCAdvisory) (d : datetime) :
  set_end_date self d = Ok self' ->
  self' = with_end_date self d.
Proof.
  unfold set_end_date, _end_date_setter. cbn [bind].
  destruct (py_index (column DataRow.datetime (__df self)) 0); cbn [bind]; [|discriminate].
  destruct (py_index (column DataRow.datetime (__df self)) (-1)); cbn [bind]; [|discriminate].
  destruct (assert _); cbn [bind]; [|discriminate].
  destruct (start_date self); cbn [bind]; [|discriminate].
  destruct (assert _); cbn [bind]; [|discriminate].
  intros E; inversion E; reflexivity.
Qed.

(** ** Region clipping *)

Section ClippingProperties.
Context `{Geometry}.

Lemma pol_intersects_same_frame (self self' : NHCAdvisory)
    (pol : list (float * float)) (d : datetime) :
  __df self' = __df self ->
  pol_intersects self' pol d = pol_intersects self pol d.
Proof.
  intros E. unfold pol_intersects, records_at. rewrite E. reflexivity.
Qed.

(** Where the circle test returns, the first record of the timestamp
    carries that timestamp. *)
Lemma first_record_datetime (self : NHCAdvisory) (pol : list (float * float))
    (d : datetime) (hit : bool) :
  pol_intersects self pol d = Ok hit ->
  py_index (column DataRow.datetime (records_at self d)) 0 = Ok d.
Proof.
  unfold pol_intersects.
  destruct (records_at self d) as [|r rs] eqn:E; [discriminate|].
  intros _. cbn.
  assert (Hin : In r (records_at self d)) by (rewrite E; left; reflexivity).
  unfold records_at in Hin. apply filter_In in Hin. destruct Hin as [_ Hd].
  apply Z.eqb_eq in Hd. rewrite Hd. reflexivity.
Qed.

Lemma clip_loop_frame (pol : list (float * float)) (dates : list datetime) :
  forall switch self self',
    clip_loop pol dates switch self = Ok self' ->
    __df self' = __df self /\ data_frame_cache self' = data_frame_cache self.
Proof.
  induction dates as [|d rest IH]; intros switch self self' Hrun.
  - cbn in Hrun. inversion Hrun; subst. split; reflexivity.
  - cbn [clip_loop] in Hrun.
    destruct (pol_intersects self pol d) as [hit|]; cbn [bind] in Hrun; [|discriminate].
    destruct switch, hit; cbn [negb] in Hrun.
    + destruct (py_index _ 0) as [d0|]; cbn [bind] in Hrun; [|discriminate].
      destruct (set_start_date self d0) as [self1|] eqn:Hset;
        cbn [bind] in Hrun; [|discriminate].
      apply set_start_date_frame in Hset. subst self1.
      apply IH in Hrun. exact Hrun.
    + apply IH in Hrun. exact Hrun.
    + apply IH in Hrun. exact Hrun.
    + destruct (py_index _ 0) as [d0|]; cbn [bind] in Hrun; [|discriminate].
      apply set_end_date_frame in Hrun. subst self'. split; reflexivity.
Qed.

(** Exit phase: while the circles meet the region nothing is written. *)
Lemma clip_loop_exit_all_inside (pol : list (float * float)) (self : NHCAdvisory) :
  forall dates,
    (forall d, In d dates -> pol_intersects self pol d = Ok true) ->
    clip_loop pol dates false self = Ok self.
Proof.
  induction dates as [|d rest IH]; intros Hall; [reflexivity|].
  cbn [clip_loop]. rewrite (Hall d (or_introl eq_refl)). cbn [bind].
  apply IH. intros d' Hd'. apply Hall. right; exact Hd'.
Qed.

(** Exit phase: the first circle that misses the region sets [end_date]
    and ends the scan. *)
Lemma clip_loop_exit_found (pol : list (float * float)) (self : NHCAdvisory)
    (e : datetime) (post : list datetime) :
  forall mid,
    (forall d, In d mid -> pol_intersects self pol d = Ok true) ->
    pol_intersects self pol e = Ok false ->
    clip_loop pol (mid ++ e :: post) false self = set_end_date self e.
Proof.
  induction mid as [|d rest IH]; intros Hall He.
  - cbn [app clip_loop]. rewrite He. cbn [bind].
    rewrite (first_record_datetime self pol e false He). reflexivity.
  - cbn [app clip_loop]. rewrite (Hall d (or_introl eq_refl)). cbn [bind].
    apply IH; [|exact He]. intros d' Hd'. apply Hall. right; exact Hd'.
Qed.

(** Entry phase: the circles that miss the region are skipped; the first
    one that meets it sets [start_date] and the scan goes on in the exit
    phase from the next timestamp. *)
Lemma clip_loop_entry_found (pol : list (float * float)) (self : NHCAdvisory)
    (s : datetime) (rest : list datetime) :
  forall pre,
    (forall d, In d pre -> pol_intersects self pol d = Ok false) ->
    pol_intersects self pol s = Ok true ->
    clip_loop pol (pre ++ s :: rest) true self
    = (self' <- set_start_date self s ;; clip_loop pol rest false self').
Proof.
  induction pre as [|d more IH]; intros Hall Hs.
  - cbn [app clip_loop]. rewrite Hs. cbn [bind negb].
    rewrite (first_record_datetime self pol s true Hs). reflexivity.
  - cbn [app clip_loop]. rewrite (Hall d (or_introl eq_refl)). cbn [bind negb].
    apply IH; [|exact Hs]. intros d' Hd'. apply Hall. right; exact Hd'.
Qed.

End ClippingProperties.

(** ** Time-ordered datasets *)

Lemma last_cons_default {A : Type} (l : list A) :
  forall x a b : A, last (x :: l) a = last (x :: l) b.
Proof.
  induction l as [|y l IH]; intros x a b; [reflexivity|].
  change (last (x :: y :: l) a) with (last (y :: l) a).
  change (last (x :: y :: l) b) with (last (y :: l) b).
  apply IH.
Qed.

Lemma sorted_le_last (l : list datetime) :
  forall a, StronglySorted Z.le (a :: l) ->
            forall d, In d (a :: l) -> d <= last (a :: l) a.
Proof.
  induction l as [|b r IH]; intros a Hs d Hd.
  - destruct Hd as [->|[]]. cbn. lia.
  - inversion Hs as [|? ? Hr Hall]; subst.
    change (last (a :: b :: r) a) with (last (b :: r) a).
    rewrite (last_cons_default r b a b).
    destruct Hd as [->|Hd].
    + inversion Hall as [|? ? Hab _]; subst.
      specialize (IH b Hr b (or_introl eq_refl)). lia.
    + apply IH; assumption.
Qed.

Lemma sorted_first_last (ts : list datetime) (first final : datetime) :
  StronglySorted Z.le ts ->
  py_index ts 0 = Ok first ->
  py_index ts (-1) = Ok final ->
  forall d, In d ts -> first <= d <= final.
Proof.
  intros Hs Hfirst Hfinal d Hd.
  destruct ts as [|a l]; [destruct Hd|].
  rewrite py_index_head in Hfirst. rewrite py_index_minus_one_ok in Hfinal.
  inversion Hfirst; inversion Hfinal; subst. split.
  - inversion Hs as [|? ? _ Hall]; subst. rewrite Forall_forall in Hall.
    destruct Hd as [->|Hd]; [lia|]. apply Hall; exact Hd.
  - apply sorted_le_last; assumption.
Qed.

Lemma nonempty_first_last {A : Type} (l : list A) (a : A) :
  In a l -> exists first final, py_index l 0 = Ok first /\ py_index l (-1) = Ok final.
Proof.
  destruct l as [|b r]; [intros []|]. intros _.
  exists b, (last (b :: r) b). split;
    [apply py_index_head | apply py_index_minus_one_ok].
Qed.

Lemma sorted_lt_split (pre : list datetime) :
  forall a rest x,
    StronglySorted Z.lt (pre ++ a :: rest) -> In x rest -> a < x.
Proof.
  induction pre as [|p pre IH]; intros a rest x Hs Hx; cbn in Hs.
  - inversion Hs as [|? ? _ Hall]; subst. rewrite Forall_forall in Hall.
    apply Hall; exact Hx.
  - inversion Hs; subst. eapply IH; eassumption.
Qed.

Section ClippingTheorems.
Context {G : Geometry}.

Lemma clip_to_bbox_entry_exit (self : NHCAdvisory) (bbox : Bbox)
    (pre mid post : list datetime) (s e : datetime) :
  unique (column DataRow.datetime (__df self)) = pre ++ s :: mid ++ e :: post ->
  (forall d, In d pre -> pol_intersects self (bbox_polygon bbox) d = Ok false) ->
  pol_intersects self (bbox_polygon bbox) s = Ok true ->
  (forall d, In d mid -> pol_intersects self (bbox_polygon bbox) d = Ok true) ->
  pol_intersects self (bbox_polygon bbox) e = Ok false ->
  clip_to_bbox self bbox
  = (self' <- set_start_date self s ;; set_end_date self' e).
Proof.
  intros Hu Hpre Hs Hmid He. unfold clip_to_bbox. rewrite Hu.
  rewrite (clip_loop_entry_found _ self s (mid ++ e :: post) pre Hpre Hs).
  destruct (set_start_date self s) as [self1|err] eqn:Hset; cbn [bind]; [|reflexivity].
  apply set_start_date_frame in Hset. subst self1.
  apply clip_loop_exit_found.
  - intros d Hd.
    rewrite (pol_intersects_same_frame self (with_start_date self s) _ d eq_refl).
    apply Hmid; exact Hd.
  - rewrite (pol_intersects_same_frame self (with_start_date self s) _ e eq_refl).
    exact He.
Qed.

(** C4. Let the unique timestamps be [pre ++ s :: mid ++ e :: post] where
    no circle of [pre] meets the region, the circle of [s] meets it, every
    circle of [mid] meets it and the circle of [e] does not (the circle of
    a timestamp has the radius of the last closed isobar times 1852 and is
    centred at the projected position of the first fix of that timestamp):
    [s] is the first timestamp whose circle meets the region and [e] the
    first one after it whose circle does not. Then every normal return of
    the scan has [start_date = s] and [end_date = e], and on a time-ordered
    dataset the scan does return normally. *)
Theorem clip_to_bbox_resolves_bounds (self : NHCAdvisory) (bbox : Bbox)
    (pre mid post : list datetime) (s e : datetime) :
  unique (column DataRow.datetime (__df self)) = pre ++ s :: mid ++ e :: post ->
  (forall d, In d pre -> pol_intersects self (bbox_polygon bbox) d = Ok false) ->
  pol_intersects self (bbox_polygon bbox) s = Ok true ->
  (forall d, In d mid -> pol_intersects self (bbox_polygon bbox) d = Ok true) ->
  pol_intersects self (bbox_polygon bbox) e = Ok false ->
  (forall self',
      clip_to_bbox self bbox = Ok self' ->
      __start_date self' = Some s /\ __end_date self' = Some e) /\
  (StronglySorted Z.le (column DataRow.datetime (__df self)) ->
   clip_to_bbox self bbox = Ok (with_end_date (with_start_date self s) e)).
Proof.
  intros Hu Hpre Hs Hmid He.
  rewrite (clip_to_bbox_entry_exit self bbox pre mid post s e Hu Hpre Hs Hmid He).
  split.
  - intros self' Hrun.
    destruct (set_start_date self s) as [self1|err] eqn:Hset;
      cbn [bind] in Hrun; [|discriminate].
    apply set_start_date_frame in Hset. subst self1.
    apply set_end_date_frame in Hrun. subst self'. split; reflexivity.
  - intros Hsorted.
    pose proof (unique_sorted (column DataRow.datetime (__df self))) as Hus.
    rewrite Hu in Hus.
    assert (Hse : s < e).
    { apply (sorted_lt_split pre s (mid ++ e :: post) e Hus).
      apply in_or_app. right. left. reflexivity. }
    assert (Hsin : In s (column DataRow.datetime (__df self))).
    { apply unique_In. rewrite Hu. apply in_or_app. right. left. reflexivity. }
    assert (Hein : In e (column DataRow.datetime (__df self))).
    { apply unique_In. rewrite Hu. apply in_or_app. right. right.
      apply in_or_app. right. left. reflexivity. }
    destruct (nonempty_first_last _ s Hsin) as [first [final [Hfirst Hfinal]]].
    pose proof (sorted_first_last _ first final Hsorted Hfirst Hfinal) as Hspan.
    pose proof (Hspan s Hsin) as Hs_span. pose proof (Hspan e Hein) as He_span.
    rewrite (set_start_date_iff self first final s Hfirst Hfinal).
    replace ((first <=? s) && (s <? final)) with true
      by (symmetry; apply andb_true_iff; split;
          [apply Z.leb_le | apply Z.ltb_lt]; lia).
    cbn [bind].
    rewrite (set_end_date_iff (with_start_date self s) first final s e
               Hfirst Hfinal eq_refl).
    replace ((first <? e) && (e <=? final) && (s <? e)) with true
      by (symmetry; rewrite !andb_true_iff; repeat split;
          [apply Z.ltb_lt | apply Z.leb_le | apply Z.ltb_lt]; lia).
    reflexivity.
Qed.

(** C10, as the code has it. When no circle of [pre] meets the region, the
    circle of [s] meets it, every later circle meets it too and [s] passes
    the validation of [start_date] (it is not before the first timestamp
    and is before the last one), the scan returns normally, [start_date]
    is [s] and nothing else of the instance changes: [end_date] keeps the
    value it had. *)
Theorem clip_to_bbox_never_leaves (self : NHCAdvisory) (bbox : Bbox)
    (pre rest : list datetime) (s first final : datetime) :
  unique (column DataRow.datetime (__df self)) = pre ++ s :: rest ->
  (forall d, In d pre -> pol_intersects self (bbox_polygon bbox) d = Ok false) ->
  pol_intersects self (bbox_polygon bbox) s = Ok true ->
  (forall d, In d rest -> pol_intersects self (bbox_polygon bbox) d = Ok true) ->
  py_index (column DataRow.datetime (__df self)) 0 = Ok first ->
  py_index (column DataRow.datetime (__df self)) (-1) = Ok final ->
  first <= s < final ->
  exists self',
    clip_to_bbox self bbox = Ok self' /\
    self' = with_start_date self s /\
    __end_date self' = __end_date self.
Proof.
  intros Hu Hpre Hs Hrest Hfirst Hfinal Hspan.
  exists (with_start_date self s). split; [|split; reflexivity].
  unfold clip_to_bbox. rewrite Hu.
  rewrite (clip_loop_entry_found _ self s rest pre Hpre Hs).
  rewrite (set_start_date_iff self first final s Hfirst Hfinal).
  replace ((first <=? s) && (s <? final)) with true
    by (symmetry; apply andb_true_iff; split;
        [apply Z.leb_le | apply Z.ltb_lt]; lia).
  cbn [bind]. apply clip_loop_exit_all_inside.
  intros d Hd.
  rewrite (pol_intersects_same_frame self (with_start_date self s) _ d eq_refl).
  apply Hrest; exact Hd.
Qed.

(** An entry found at the last timestamp of the dataset does not pass the
    validation of [start_date]: the scan raises. *)
Lemma clip_to_bbox_entry_at_last (self : NHCAdvisory) (bbox : Bbox)
    (pre rest : list datetime) (s first : datetime) :
  unique (column DataRow.datetime (__df self)) = pre ++ s :: rest ->
  (forall d, In d pre -> pol_intersects self (bbox_polygon bbox) d = Ok false) ->
  pol_intersects self (bbox_polygon bbox) s = Ok true ->
  py_index (column DataRow.datetime (__df self)) 0 = Ok first ->
  py_index (column DataRow.datetime (__df self)) (-1) = Ok s ->
  clip_to_bbox self bbox = Raise AssertionError.
Proof.
  intros Hu Hpre Hs Hfirst Hfinal. unfold clip_to_bbox. rewrite Hu.
  rewrite (clip_loop_entry_found _ self s rest pre Hpre Hs).
  rewrite (set_start_date_iff self first s s Hfirst Hfinal).
  rewrite Z.ltb_irrefl, andb_false_r. reflexivity.
Qed.

End ClippingTheorems.

Lemma clip_to_bbox_resolves_bounds_witness :
  @clip_to_bbox flat_geometry sample_advisory sample_bbox
  = Ok (with_end_date (with_start_date sample_advisory 6) 18).
Proof.
  apply (@clip_to_bbox_resolves_bounds flat_geometry sample_advisory
           sample_bbox [0] [12] [] 6 18 eq_refl).
  - intros d [<-|[]]. reflexivity.
  - reflexivity.
  - intros d [<-|[]]. reflexivity.
  - reflexivity.
  - cbn. repeat constructor; lia.
Defined.

(** The storm of [late_entry_advisory] enters the region at the last
    timestamp and never leaves it, and the scan raises. *)
Lemma clip_to_bbox_late_entry_raises :
  unique (column DataRow.datetime (__df late_entry_advisory)) = [0; 6] /\
  @pol_intersects flat_geometry late_entry_advisory (bbox_polygon sample_bbox) 0
  = Ok false /\
  @pol_intersects flat_geometry late_entry_advisory (bbox_polygon sample_bbox) 6
  = Ok true /\
  @clip_to_bbox flat_geometry late_entry_advisory sample_bbox
  = Raise AssertionError.
Proof. repeat split. Qed.

Lemma clip_to_bbox_never_leaves_witness :
  exists self',
    @clip_to_bbox flat_geometry inside_advisory sample_bbox = Ok self' /\
    self' = with_start_date inside_advisory 6 /\
    __end_date self' = Some 12.
Proof.
  apply (@clip_to_bbox_never_leaves flat_geometry inside_advisory sample_bbox
           [0] [12] 6 0 12 eq_refl).
  - intros d [<-|[]]. reflexivity.
  - reflexivity.
  - intros d [<-|[]]. reflexivity.
  - reflexivity.
  - reflexivity.
  - lia.
Defined.

(** ** DateWindow: the memoised view *)

Section WindowTheorems.
Context {G : Geometry}.

(** C3, as the code has it. The first read of the windowed view computes
    it from the bounds then in force: it is exactly the rows of the dataset
    whose timestamp [t] satisfies [start_date <= t <= m], where [m] is the
    least timestamp of the dataset that is not before [end_date]. The view
    is then memoised for the instance: every later read returns that same
    view, also after [start_date] or [end_date] has been set again or the
    region clipping has run. *)
Theorem data_frame_memoised :
  (forall (self : NHCAdvisory) (s e m : datetime),
      data_frame_cache self = None ->
      __start_date self = Some s ->
      __end_date self = Some e ->
      In m (column DataRow.datetime (__df self)) ->
      e <= m ->
      (forall d, In d (column DataRow.datetime (__df self)) -> e <= d -> m <= d) ->
      exists view,
        data_frame self = Ok (view, with_data_frame_cache self view) /\
        view = filter (in_window s m) (__df self) /\
        (forall r, In r view <-> In r (__df self) /\ s <= DataRow.datetime r <= m))
  /\
  (forall (self self1 : NHCAdvisory) (view : list DataRow.t),
      data_frame self = Ok (view, self1) ->
      data_frame self1 = Ok (view, self1) /\
      (forall d self2,
          set_start_date self1 d = Ok self2 -> data_frame self2 = Ok (view, self2)) /\
      (forall d self2,
          set_end_date self1 d = Ok self2 -> data_frame self2 = Ok (view, self2)) /\
      (forall bbox self2,
          clip_to_bbox self1 bbox = Ok self2 -> data_frame self2 = Ok (view, self2))).
Proof.
  split.
  - intros self s e m Hcache Hs He Hin Hem Hleast.
    exists (filter (in_window s m) (__df self)). split; [|split; [reflexivity|]].
    + unfold data_frame. rewrite Hcache. unfold data_frame_body, start_date.
      rewrite Hs. cbn [getattr bind].
      rewrite (file_end_date_least self e m He Hin Hem Hleast). reflexivity.
    + intros r. rewrite filter_In. unfold in_window.
      rewrite andb_true_iff, Z.leb_le, Z.leb_le. tauto.
  - intros self self1 view Hread.
    pose proof (data_frame_fills_cache self self1 view Hread) as Hc.
    split; [apply data_frame_cached; exact Hc|].
    split; [|split].
    + intros d self2 Hset. apply set_start_date_frame in Hset. subst self2.
      apply data_frame_cached. exact Hc.
    + intros d self2 Hset. apply set_end_date_frame in Hset. subst self2.
      apply data_frame_cached. exact Hc.
    + intros bbox self2 Hclip. apply clip_loop_frame in Hclip.
      apply data_frame_cached. rewrite (proj2 Hclip). exact Hc.
Qed.

End WindowTheorems.

Lemma data_frame_memoised_witness :
  exists view,
    data_frame sample_advisory
    = Ok (view, with_data_frame_cache sample_advisory view) /\
    view = filter (in_window 0 18) (__df sample_advisory) /\
    (forall r, In r view <-> In r (__df sample_advisory) /\ 0 <= DataRow.datetime r <= 18).
Proof.
  apply (proj1 (@data_frame_memoised flat_geometry) sample_advisory 0 18 18).
  - reflexivity.
  - reflexivity.
  - reflexivity.
  - cbn. tauto.
  - lia.
  - intros d Hd Hle. cbn in Hd. lia.
Defined.

(** The view read with the window [0, 18] has the four rows of the sample
    frame; after [start_date] is set to 6 a second read still returns those
    four rows, while the rows between the new bounds are three. *)
Lemma data_frame_stale_after_bounds_change :
  exists self1 self2 view,
    data_frame sample_advisory = Ok (view, self1) /\
    set_start_date self1 6 = Ok self2 /\
    start_date self2 = Ok 6 /\
    _file_end_date self2 = Ok (Some 18) /\
    data_frame self2 = Ok (view, self2) /\
    List.length view = 4%nat /\
    List.length (filter (in_window 6 18) (__df self2)) = 3%nat.
Proof.
  exists (with_data_frame_cache sample_advisory sample_frame).
  exists (with_start_date (with_data_frame_cache sample_advisory sample_frame) 6).
  exists sample_frame.
  repeat split.
Qed.

(** ** Loops that may raise *)

Section MapM.
Context {A B : Type}.


(** A loop whose turns can only raise [e] either completes, every turn
    having returned, or raises [e], some turn having raised it. *)
Lemma mapM_outcome (f : A -> result B) (e : exn) (l : list A) :
  (forall a, In a l -> (exists b, f a = Ok b) \/ f a = Raise e) ->
  (exists bs, mapM f l = Ok bs /\ forall a, In a l -> exists b, f a = Ok b) \/
  (mapM f l = Raise e /\ exists a, In a l /\ f a = Raise e).
Proof.
  induction l as [|a l IH]; intros Hf.
  - left. exists []. split; [reflexivity|]. intros a [].
  - cbn [mapM]. destruct (Hf a (or_introl eq_refl)) as [[b Hb]|Hb].
    + rewrite Hb. cbn [bind].
      destruct IH as [[bs [Hbs Hall]]|[Hr [a' [Ha' Hfa']]]].
      * intros a' Ha'. apply Hf. right; exact Ha'.
      * left. exists (b :: bs). rewrite Hbs. split; [reflexivity|].
        intros a' [<-|Ha']; [exists b; exact Hb | apply Hall; exact Ha'].
      * right. rewrite Hr. split; [reflexivity|].
        exists a'. split; [right; exact Ha' | exact Hfa'].
    + right. rewrite Hb. split; [reflexivity|].
      exists a. split; [left; reflexivity | exact Hb].
Qed.



End MapM.


Lemma py_index_total {A : Type} (l : list A) (i : Z) :
  - len l <= i < len l -> exists a, py_index l i = Ok a.
Proof.
  intros Hi. unfold py_index, len in *.
  set (j := if i <? 0 then Z.of_nat (List.length l) + i else i).
  assert (Hj : 0 <= j < Z.of_nat (List.length l))
    by (subst j; destruct (Z.ltb_spec i 0); lia).
  destruct (Z.ltb_spec j 0) as [Hneg|_]; [lia|].
  destruct (nth_error_in_range l (Z.to_nat j)) as [a Ha]; [lia|].
  exists a. rewrite Ha. reflexivity.
Qed.

Lemma py_index_of_nat {A : Type} (l : list A) (i : nat) :
  py_index l (Z.of_nat i)
  = match nth_error l i with Some a => Ok a | None => Raise IndexError end.
Proof.
  unfold py_index.
  assert (Hi : (Z.of_nat i <? 0) = false) by (apply Z.ltb_ge; lia).
  rewrite Hi. cbv beta iota zeta. rewrite Hi, Nat2Z.id. reflexivity.
Qed.

(** ** [numpy.where] *)

Lemma where_from_In (t : list datetime) (d : datetime) :
  forall k j,
    In j (where_from k t d) <->
    exists i, j = (k + i)%nat /\ nth_error t i = Some d.
Proof.
  induction t as [|h r IH]; intros k j; cbn [where_from].
  - split; [intros []|]. intros [i [_ Hi]]. destruct i; discriminate.
  - assert (Hrest :
              In j (where_from (S k) r d) <->
              exists i, j = (k + S i)%nat /\ nth_error (h :: r) (S i) = Some d).
    { rewrite IH. split; intros [i [Hj Hi]]; exists i; (split; [lia|exact Hi]). }
    destruct (Z.eqb_spec h d) as [E|Hne].
    + cbn [In]. rewrite Hrest. split.
      * intros [<-|[i [Hj Hi]]].
        -- exists 0%nat. split; [lia|]. cbn. congruence.
        -- exists (S i). split; assumption.
      * intros [[|i] [Hj Hi]].
        -- left. lia.
        -- right. exists i. split; assumption.
    + rewrite Hrest. split.
      * intros [i [Hj Hi]]. exists (S i). split; assumption.
      * intros [[|i] [Hj Hi]].
        -- cbn in Hi. congruence.
        -- exists i. split; assumption.
Qed.

Lemma where_eq_In (t : list datetime) (d : datetime) (idx : Z) :
  In idx (where_eq t d) <->
  exists i, idx = Z.of_nat i /\ nth_error t i = Some d.
Proof.
  unfold where_eq. rewrite in_map_iff. split.
  - intros [j [<- Hj]]. apply where_from_In in Hj. destruct Hj as [i [-> Hi]].
    exists i. split; [reflexivity|exact Hi].
  - intros [i [-> Hi]]. exists i. split; [reflexivity|].
    apply where_from_In. exists i. split; [reflexivity|exact Hi].
Qed.

(** ** VelocityEstimator *)

Lemma py_index_In {A : Type} (l : list A) (i : Z) (a : A) :
  py_index l i = Ok a -> In a l.
Proof.
  unfold py_index. destruct (_ <? 0); [discriminate|].
  destruct (nth_error l _) as [b|] eqn:E; [|discriminate].
  intros Hb. inversion Hb; subst. eapply nth_error_In; exact E.
Qed.

Section VelocityProperties.
Context {G : Geometry}.

(** One turn of the inner loop: it raises [ZeroDivisionError] when the
    time difference is zero and returns otherwise. *)
Lemma velocity_at_outcome (t : list datetime) (x y : list float)
    (indexes : list Z) (idx : Z) :
  List.length x = List.length t ->
  List.length y = List.length t ->
  indexes <> [] ->
  (forall k, In k indexes -> 0 <= k < len t) ->
  0 <= idx < len t ->
  exists h,
    reference_hours t indexes idx = Ok h /\
    (h = 0 -> velocity_at t x y indexes idx = Raise ZeroDivisionError) /\
    (h <> 0 -> exists v, velocity_at t x y indexes idx = Ok v).
Proof.
  intros Hx Hy Hne Hrange Hidx.
  assert (Hlx : len x = len t) by (unfold len; rewrite Hx; reflexivity).
  assert (Hly : len y = len t) by (unfold len; rewrite Hy; reflexivity).
  assert (Hli : 0 < len indexes) by (destruct indexes; [congruence|unfold len; cbn; lia]).
  destruct (py_index_total indexes (-1)) as [final Hfinal]; [lia|].
  destruct (py_index_total indexes 0) as [first Hfirst]; [lia|].
  pose proof (Hrange _ (py_index_In _ _ _ Hfinal)) as Hfinal_range.
  pose proof (Hrange _ (py_index_In _ _ _ Hfirst)) as Hfirst_range.
  destruct (py_index_total t idx) as [ti Hti]; [lia|].
  destruct (py_index_total x idx) as [xi Hxi]; [lia|].
  destruct (py_index_total y idx) as [yi Hyi]; [lia|].
  unfold reference_hours, velocity_at. rewrite Hfinal. cbn [bind].
  destruct (Z.ltb_spec (final + 1) (len t)) as [Hnext|Hend].
  - destruct (py_index_total t (final + 1)) as [tn Htn]; [lia|].
    destruct (py_index_total x (final + 1)) as [xn Hxn]; [lia|].
    destruct (py_index_total y (final + 1)) as [yn Hyn]; [lia|].
    rewrite Htn, Hti, Hxn, Hxi, Hyn, Hyi. cbn [bind].
    exists (tn - ti). split; [reflexivity|]. unfold velocity_of.
    split; intros Hh.
    + rewrite Hh. reflexivity.
    + destruct (Z.eqb_spec (tn - ti) 0) as [E|_]; [congruence|].
      eexists; reflexivity.
  - rewrite Hfirst. cbn [bind].
    destruct (py_index_total t (first - 1)) as [tp Htp]; [lia|].
    destruct (py_index_total x (first - 1)) as [xp Hxp]; [lia|].
    destruct (py_index_total y (first - 1)) as [yp Hyp]; [lia|].
    rewrite Htp, Hti, Hxp, Hxi, Hyp, Hyi. cbn [bind].
    exists (ti - tp). split; [reflexivity|]. unfold velocity_of.
    split; intros Hh.
    + rewrite Hh. reflexivity.
    + destruct (Z.eqb_spec (ti - tp) 0) as [E|_]; [congruence|].
      eexists; reflexivity.
Qed.

Lemma where_eq_range (t : list datetime) (d : datetime) (k : Z) :
  In k (where_eq t d) -> 0 <= k < len t.
Proof.
  intros Hk. apply where_eq_In in Hk. destruct Hk as [i [-> Hi]].
  assert (Hlt : (i < List.length t)%nat) by (apply nth_error_Some; congruence).
  unfold len. lia.
Qed.

(** The outcome of a turn, for the fix of row [i]. *)
Lemma velocity_at_fix (t : list datetime) (x y : list float) (i : nat) (d : datetime) :
  List.length x = List.length t ->
  List.length y = List.length t ->
  nth_error t i = Some d ->
  exists h,
    fix_hours t i = Ok h /\
    (h = 0 ->
     velocity_at t x y (where_eq t d) (Z.of_nat i) = Raise ZeroDivisionError) /\
    (h <> 0 -> exists v, velocity_at t x y (where_eq t d) (Z.of_nat i) = Ok v).
Proof.
  intros Hx Hy Hi. unfold fix_hours. rewrite Hi.
  assert (Hin : In (Z.of_nat i) (where_eq t d))
    by (apply where_eq_In; exists i; split; [reflexivity|exact Hi]).
  apply velocity_at_outcome; try assumption.
  - intros E. rewrite E in Hin. destruct Hin.
  - intros k. apply where_eq_range.
  - apply (where_eq_range t d). exact Hin.
Qed.

End VelocityProperties.

Section VelocityOutcome.
Context {G : Geometry}.
Variables (t : list datetime) (x y : list float).
Hypothesis Hx : List.length x = List.length t.
Hypothesis Hy : List.length y = List.length t.

Lemma velocity_turn_cases (d : datetime) (idx : Z) :
  In idx (where_eq t d) ->
  (exists v, velocity_at t x y (where_eq t d) idx = Ok v) \/
  velocity_at t x y (where_eq t d) idx = Raise ZeroDivisionError.
Proof.
  intros Hin. apply where_eq_In in Hin. destruct Hin as [i [-> Hi]].
  destruct (velocity_at_fix t x y i d Hx Hy Hi) as [h [_ [Hzero Hnonzero]]].
  destruct (Z.eq_dec h 0) as [E|Hne]; [right; apply Hzero; exact E|].
  left. apply Hnonzero; exact Hne.
Qed.

Lemma velocity_group_cases (d : datetime) :
  (exists vs, velocity_group t x y d = Ok vs /\
              forall idx, In idx (where_eq t d) ->
                          exists v, velocity_at t x y (where_eq t d) idx = Ok v) \/
  (velocity_group t x y d = Raise ZeroDivisionError /\
   exists idx, In idx (where_eq t d) /\
               velocity_at t x y (where_eq t d) idx = Raise ZeroDivisionError).
Proof.
  unfold velocity_group. apply mapM_outcome. intros idx. apply velocity_turn_cases.
Qed.

Lemma velocities_raise :
  (exists i, fix_hours t i = Ok 0) ->
  velocities t x y = Raise ZeroDivisionError.
Proof.
  intros [i Hzero]. unfold velocities.
  destruct (nth_error t i) as [d|] eqn:Hi;
    [|unfold fix_hours in Hzero; rewrite Hi in Hzero; discriminate].
  destruct (velocity_at_fix t x y i d Hx Hy Hi) as [h [Hh [Hraise _]]].
  rewrite Hzero in Hh. inversion Hh; subst h. specialize (Hraise eq_refl).
  assert (Hidx : In (Z.of_nat i) (where_eq t d))
    by (apply where_eq_In; exists i; split; [reflexivity|exact Hi]).
  assert (Hgroup : velocity_group t x y d = Raise ZeroDivisionError).
  { destruct (velocity_group_cases d) as [[vs [_ Hall]]|[Hr _]]; [|exact Hr].
    destruct (Hall _ Hidx) as [v Hv]. congruence. }
  destruct (mapM_outcome (velocity_group t x y) ZeroDivisionError (unique t))
    as [[groups [_ Hall]]|[Hr _]].
  - intros d' _. destruct (velocity_group_cases d') as [[vs [Hvs _]]|[Hr _]];
      [left; exists vs; exact Hvs | right; exact Hr].
  - destruct (Hall d) as [vs Hvs];
      [apply unique_In; eapply nth_error_In; exact Hi | congruence].
  - rewrite Hr. reflexivity.
Qed.

Lemma velocities_return :
  (forall i, (i < List.length t)%nat -> fix_hours t i <> Ok 0) ->
  exists vs, velocities t x y = Ok vs.
Proof.
  intros Hnonzero. unfold velocities.
  destruct (mapM_outcome (velocity_group t x y) ZeroDivisionError (unique t))
    as [[groups [Hgroups _]]|[_ [d [Hd Hr]]]].
  - intros d' _. destruct (velocity_group_cases d') as [[vs [Hvs _]]|[Hr _]];
      [left; exists vs; exact Hvs | right; exact Hr].
  - rewrite Hgroups. eexists; reflexivity.
  - exfalso.
    destruct (velocity_group_cases d) as [[vs [Hvs _]]|[_ [idx [Hidx Hraise]]]];
      [congruence|].
    apply where_eq_In in Hidx. destruct Hidx as [i [-> Hi]].
    destruct (velocity_at_fix t x y i d Hx Hy Hi) as [h [Hh [_ Hok]]].
    destruct (Z.eq_dec h 0) as [E|Hne].
    + subst h. apply (Hnonzero i); [apply nth_error_Some; congruence | exact Hh].
    + destruct (Hok Hne) as [v Hv]. congruence.
Qed.

End VelocityOutcome.

Lemma projected_columns_length {G : Geometry} (lon lat : list float) (n : nat) :
  List.length lon = n -> List.length lat = n ->
  let xy := map (fun p => merc (fst p) (snd p)) (combine lon lat) in
  List.length (map fst xy) = n /\ List.length (map snd xy) = n.
Proof.
  intros Hlon Hlat. cbn zeta. rewrite !length_map, length_combine, Hlon, Hlat.
  split; apply Nat.min_id.
Qed.

(** C6. On columns of equal length, the velocity derivation raises
    [ZeroDivisionError], an [ArithmeticError], as soon as some fix is zero
    hours away from its reference neighbour, and returns when no fix is. *)
Theorem compute_velocity_zero_time_difference {G : Geometry} (data : Data.t) :
  List.length (Data.longitude data) = List.length (Data.datetime data) ->
  List.length (Data.latitude data) = List.length (Data.datetime data) ->
  ((exists i, fix_hours (Data.datetime data) i = Ok 0) ->
   exists e, _compute_velocity data = Raise e /\
             e = ZeroDivisionError /\ is_ArithmeticError e = true) /\
  ((forall i, (i < List.length (Data.datetime data))%nat ->
              fix_hours (Data.datetime data) i <> Ok 0) ->
   exists out, _compute_velocity data = Ok out).
Proof.
  intros Hlon Hlat.
  destruct (projected_columns_length _ _ _ Hlon Hlat) as [Hx Hy].
  cbn zeta in Hx, Hy. split.
  - intros Hzero. exists ZeroDivisionError. split; [|split; reflexivity].
    unfold _compute_velocity.
    rewrite (velocities_raise _ _ _ Hx Hy Hzero). reflexivity.
  - intros Hnonzero. unfold _compute_velocity.
    destruct (velocities_return _ _ _ Hx Hy Hnonzero) as [vs Hvs].
    rewrite Hvs. eexists; reflexivity.
Qed.

(** ** The order of the derived velocities on a time-ordered column *)

Lemma where_from_absent (t : list datetime) (d : datetime) :
  forall k, ~ In d t -> where_from k t d = [].
Proof.
  induction t as [|h r IH]; intros k Hnot; [reflexivity|]. cbn [where_from].
  destruct (Z.eqb_spec h d) as [E|_]; [exfalso; apply Hnot; left; exact E|].
  apply IH. intros Hin. apply Hnot. right; exact Hin.
Qed.


Lemma flat_map_head {A B : Type} (f : A -> list B) (a : A) (l : list A) :
  flat_map f (a :: l) = f a ++ flat_map f l.
Proof. reflexivity. Qed.






Section VelocityOrder.
Context {G : Geometry}.





End VelocityOrder.

(** ** AdvisoryDataset *)

Lemma map_nth_seq {A : Type} (d : A) (l : list A) :
  map (fun k => nth k l d) (seq 0 (List.length l)) = l.
Proof.
  induction l as [|a l IH]; [reflexivity|].
  cbn [List.length seq map nth]. f_equal.
  rewrite <- seq_shift, map_map. exact IH.
Qed.

(** What a data frame holds in row [i]: the entries of the columns at
    position [i]. *)
Lemma DataFrame_rows (data : Data.t) (df : list DataRow.t) :
  DataFrame data = Ok df ->
  List.length (Data.longitude data) = List.length (Data.datetime data) /\
  List.length (Data.latitude data) = List.length (Data.datetime data) /\
  column DataRow.datetime df = Data.datetime data /\
  forall i r,
    nth_error df i = Some r ->
    nth_error (Data.datetime data) i = Some (DataRow.datetime r) /\
    nth_error (Data.longitude data) i = Some (DataRow.longitude r) /\
    nth_error (Data.latitude data) i = Some (DataRow.latitude r) /\
    DataRow.direction r = direction_at data i /\
    DataRow.speed r = speed_at data i.
Proof.
  unfold DataFrame.
  match goal with
  | |- (if ?c then _ else _) = _ -> _ => destruct c eqn:Hlen; [|discriminate]
  end.
  rewrite !andb_true_iff in Hlen.
  destruct Hlen as [[[[[[[[_ _] Hlat] Hlon] _] _] _] _] _].
  unfold same_length in Hlat, Hlon.
  apply Nat.eqb_eq in Hlat, Hlon.
  intros Hdf. inversion Hdf as [Hrows]. clear Hdf.
  split; [exact Hlon|]. split; [exact Hlat|]. split.
  - unfold column. rewrite map_map. cbn [DataRow.datetime]. apply map_nth_seq.
  - intros i r Hr. rewrite nth_error_map, nth_error_seq in Hr.
    destruct (Nat.ltb_spec i (List.length (Data.datetime data))) as [Hi|_];
      [|discriminate].
    cbn in Hr. inversion Hr; subst r. cbn.
    repeat split; try apply nth_error_nth'; try lia; reflexivity.
Qed.

Section DatasetProperties.
Context {G : Geometry}.

Lemma compute_velocity_columns (data out : Data.t) :
  _compute_velocity data = Ok out ->
  Data.datetime out = Data.datetime data /\
  Data.longitude out = Data.longitude data /\
  Data.latitude out = Data.latitude data.
Proof.
  unfold _compute_velocity.
  destruct (velocities _ _ _); cbn [bind]; [|discriminate].
  intros E; inversion E; subst out. repeat split.
Qed.

(** [_df] is the frame of the best-track dictionary after the velocity
    derivation. *)
Lemma df_unfold (storm : Storm.t) (df : list DataRow.t) :
  _df storm = Ok df ->
  exists data out,
    storm_data storm = Ok data /\
    Data.datetime data = Storm.date storm /\
    Data.direction data = None /\ Data.speed data = None /\
    _compute_velocity data = Ok out /\
    DataFrame out = Ok df.
Proof.
  unfold _df. destruct (storm_data storm) as [data|] eqn:Hdata; cbn [bind];
    [|discriminate].
  destruct (_compute_velocity data) as [out|] eqn:Hout; cbn [bind]; [|discriminate].
  intros Hdf. exists data, out.
  assert (Hfields : Data.datetime data = Storm.date storm /\
                    Data.direction data = None /\ Data.speed data = None).
  { unfold storm_data in Hdata.
    destruct (int_of_str _); cbn [bind] in Hdata; [|discriminate].
    inversion Hdata; subst data. repeat split. }
  destruct Hfields as [Ht [Hd Hsp]]. repeat split; assumption.
Qed.

End DatasetProperties.

(** ** Rows of one timestamp *)

Lemma sorted_nth_le (l : list datetime) :
  StronglySorted Z.le l ->
  forall i j a b,
    (i <= j)%nat -> nth_error l i = Some a -> nth_error l j = Some b -> a <= b.
Proof.
  induction 1 as [|h r Hr IH Hall]; intros i j a b Hij Ha Hb.
  - destruct i; discriminate.
  - rewrite Forall_forall in Hall. destruct i as [|i], j as [|j]; cbn in Ha, Hb.
    + inversion Ha; inversion Hb; subst. lia.
    + inversion Ha; subst. apply Hall. eapply nth_error_In; exact Hb.
    + lia.
    + eapply IH; [|exact Ha|exact Hb]. lia.
Qed.


Lemma compute_velocity_zero_time_difference_witness :
  (exists e, @_compute_velocity flat_geometry (still_data [0; 0]) = Raise e /\
             e = ZeroDivisionError /\ is_ArithmeticError e = true) /\
  (exists out, @_compute_velocity flat_geometry (still_data [0; 6]) = Ok out).
Proof.
  split.
  - apply (@compute_velocity_zero_time_difference flat_geometry (still_data [0; 0])
             eq_refl eq_refl).
    exists 0%nat. reflexivity.
  - apply (@compute_velocity_zero_time_difference flat_geometry (still_data [0; 6])
             eq_refl eq_refl).
    intros i Hi. cbn in Hi.
    destruct i as [|[|i]]; [discriminate | discriminate | lia].
Defined.



(** The timestamps of the dataset are those of the best-track feed. *)
Lemma df_timestamps {G : Geometry} (storm : Storm.t) (df : list DataRow.t) :
  _df storm = Ok df -> column DataRow.datetime df = Storm.date storm.
Proof.
  intros Hrun.
  destruct (df_unfold storm df Hrun) as [data [out [_ [Ht [_ [_ [Hvel Hframe]]]]]]].
  destruct (DataFrame_rows out df Hframe) as [_ [_ [Hcol _]]].
  destruct (compute_velocity_columns data out Hvel) as [Et _].
  rewrite Hcol, Et, Ht. reflexivity.
Qed.

(** C2, at a storm whose best-track feed has fixes at hours 0 and 6 and
    whose forecast feed has fixes 12 and 24 hours ahead: the dataset that
    [_df] builds has the two best-track rows and no forecast row. *)
Theorem df_omits_forecast_feed {G : Geometry} :
  exists df,
    _df sample_storm = Ok df /\
    column DataRow.datetime df = [0; 6] /\
    List.length df = 2%nat /\
    fhr (Storm.get_forecast_realtime sample_storm) = [12; 24].
Proof.
  destruct (_df sample_storm) as [df|e] eqn:Hrun.
  - exists df. pose proof (df_timestamps sample_storm df Hrun) as Hcol.
    split; [reflexivity|]. split; [exact Hcol|]. split; [|reflexivity].
    apply (f_equal (@List.length Z)) in Hcol. unfold column in Hcol.
    rewrite length_map in Hcol. exact Hcol.
  - exfalso. vm_compute in Hrun. discriminate.
Qed.

(** ** TrackLineEncoder: strings and widths *)







Lemma Ok_inj {A : Type} (a b : A) : Ok a = Ok b -> a = b.
Proof. intros E. congruence. Qed.








(** ** TrackLineEncoder: the background pressure *)

(** C1, as the code has it. With [P] the central pressure of the row:
    a row with a background pressure [B] of its own yields 1013 when
    [B <= P < 1013], [int(P + 1)] when [B <= P] and [P >= 1013], and [int(B)],
    truncated, otherwise. A row without one, which is not the first row,
    reads the background pressure of the row before it as the windowed view
    stores it (uncorrected): it yields a blank when that is absent too, and
    1013 or [int(P + 1)] as above when that [B] is at most [P]. Where no row
    of the view has a background pressure every row yields a blank; so does
    a dataset of one row with central pressure 1000 and no background
    pressure. Central pressure 1020 with background pressure 1015 yields
    1021. *)
Theorem fort22_background_pressure_rule :
  (forall (data_frame : list DataRow.t) (i : Z) (row : DataRow.t) (b : float),
      DataRow.background_pressure row = Some b ->
      fort22_background_pressure data_frame i row
      = if ((b <=? DataRow.central_pressure row)
            && (DataRow.central_pressure row <? 1013))%float
        then Ok (Int 1013)
        else if ((b <=? DataRow.central_pressure row)
                 && (1013 <=? DataRow.central_pressure row))%float
             then z <- py_int (DataRow.central_pressure row + 1)%float ;; Ok (Int z)
             else z <- py_int b ;; Ok (Int z))
  /\
  (forall (data_frame : list DataRow.t) (k : nat) (row before : DataRow.t),
      DataRow.background_pressure row = None ->
      nth_error data_frame k = Some before ->
      (DataRow.background_pressure before = None ->
       fort22_background_pressure data_frame (Z.of_nat (S k)) row = Ok Blank) /\
      (forall b,
          DataRow.background_pressure before = Some b ->
          (b <=? DataRow.central_pressure row)%float = true ->
          ((DataRow.central_pressure row <? 1013)%float = true ->
           fort22_background_pressure data_frame (Z.of_nat (S k)) row
           = Ok (Int 1013)) /\
          ((DataRow.central_pressure row <? 1013)%float = false ->
           (1013 <=? DataRow.central_pressure row)%float = true ->
           fort22_background_pressure data_frame (Z.of_nat (S k)) row
           = (z <- py_int (DataRow.central_pressure row + 1)%float ;; Ok (Int z)))))
  /\
  (forall (data_frame : list DataRow.t) (i : Z) (row : DataRow.t),
      Forall (fun r => DataRow.background_pressure r = None) data_frame ->
      DataRow.background_pressure row = None ->
      0 <= i < len data_frame ->
      fort22_background_pressure data_frame i row = Ok Blank)
  /\
  fort22_background_pressure [pressure_row 1000 None] 0 (pressure_row 1000 None)
  = Ok Blank
  /\
  (forall (data_frame : list DataRow.t) (i : Z),
      fort22_background_pressure data_frame i (pressure_row 1020 (Some 1015%float))
      = Ok (Int 1021)).
Proof.
  split; [|split; [|split; [|split]]].
  - intros data_frame i row b Hown. unfold fort22_background_pressure.
    rewrite Hown. cbn [bind]. reflexivity.
  - intros data_frame k row before Hown Hbefore.
    assert (Hcarry : py_index (column DataRow.background_pressure data_frame)
                       (Z.of_nat (S k) - 1)
                     = Ok (DataRow.background_pressure before)).
    { replace (Z.of_nat (S k) - 1) with (Z.of_nat k) by lia.
      apply py_index_nat. unfold column. rewrite nth_error_map, Hbefore.
      reflexivity. }
    unfold fort22_background_pressure. rewrite Hown, Hcarry. cbn [bind].
    split.
    + intros Habsent. rewrite Habsent. reflexivity.
    + intros b Hb Hle. rewrite Hb, Hle. cbn [andb]. split.
      * intros Hlow. rewrite Hlow. reflexivity.
      * intros Hlow Hhigh. rewrite Hlow, Hhigh. reflexivity.
  - intros data_frame i row Hall Hown Hi.
    unfold fort22_background_pressure. rewrite Hown.
    destruct (py_index_total (column DataRow.background_pressure data_frame) (i - 1))
      as [carried Hcarried].
    { unfold column, len in *. rewrite length_map. lia. }
    rewrite Hcarried. cbn [bind].
    apply py_index_In in Hcarried. unfold column in Hcarried.
    apply in_map_iff in Hcarried. destruct Hcarried as [r [Hr Hin]].
    rewrite Forall_forall in Hall. rewrite (Hall r Hin) in Hr. subst carried.
    reflexivity.
  - reflexivity.
  - intros data_frame i. reflexivity.
Qed.

Lemma fort22_background_pressure_rule_witness :
  fort22_background_pressure
    [pressure_row 990 (Some 1000%float); pressure_row 1005 None] 1
    (pressure_row 1005 None)
  = Ok (Int 1013)
  /\
  fort22_background_pressure [pressure_row 1000 None; pressure_row 1000 None] 1
    (pressure_row 1000 None)
  = Ok Blank.
Proof.
  destruct fort22_background_pressure_rule as [_ [Hcarry [Hblank _]]]. split.
  - apply (proj2 (Hcarry [pressure_row 990 (Some 1000%float); pressure_row 1005 None]
                    0%nat (pressure_row 1005 None)
                    (pressure_row 990 (Some 1000%float)) eq_refl eq_refl)
             1000%float eq_refl eq_refl).
    reflexivity.
  - apply Hblank.
    + repeat constructor.
    + reflexivity.
    + unfold len. cbn. lia.
Defined.

(** On the code the single row of the first example yields a blank, not
    1013; a row that reads the background pressure of the row before it
    reads the stored 1015 and not the corrected 1021, and yields 1019 where
    the corrected value would yield 1021; and 1015.75 becomes 1015, not
    1016. *)
Lemma fort22_background_pressure_examples :
  fort22_background_pressure [pressure_row 1000 None] 0 (pressure_row 1000 None)
  = Ok Blank /\
  fort22_background_pressure [pressure_row 1000 None] 0 (pressure_row 1000 None)
  <> Ok (Int 1013) /\
  fort22_background_pressure
    [pressure_row 1020 (Some 1015%float); pressure_row 1018 None] 0
    (pressure_row 1020 (Some 1015%float))
  = Ok (Int 1021) /\
  fort22_background_pressure
    [pressure_row 1020 (Some 1015%float); pressure_row 1018 None] 1
    (pressure_row 1018 None)
  = Ok (Int 1019) /\
  fort22_background_pressure [pressure_row 1000 (Some 1015.75%float)] 0
    (pressure_row 1000 (Some 1015.75%float))
  = Ok (Int 1015).
Proof.
  split; [reflexivity|]. split; [discriminate|].
  split; [reflexivity|]. split; reflexivity.
Qed.

(** ** The decimal conversion has fuel to spare *)

Lemma str_digits_fuel (f : nat) :
  forall (extra : nat) (n : Z) (acc : string),
    0 <= n < 10 ^ Z.of_nat (S f) ->
    str_digits (S f + extra) n acc = str_digits (S f) n acc.
Proof.
  induction f as [|f IH]; intros extra n acc Hn.
  - cbn [Nat.add str_digits].
    replace (n / 10) with 0 by (symmetry; apply Z.div_small; cbn in Hn; lia).
    reflexivity.
  - change (S (S f) + extra)%nat with (S (S f + extra)).
    cbn [str_digits]. destruct (n / 10 =? 0); [reflexivity|].
    apply IH. split; [apply Z.div_pos; lia|].
    apply Z.div_lt_upper_bound; [lia|].
    replace (Z.of_nat (S (S f))) with (Z.succ (Z.of_nat (S f))) in Hn by lia.
    rewrite Z.pow_succ_r in Hn by lia. lia.
Qed.

(** The digits of [str n] do not depend on the fuel beyond the one it
    takes. *)
Lemma str_fuel_enough (n : Z) (extra : nat) :
  0 <= n ->
  str_digits (S (Z.to_nat (Z.log2 n)) + extra) n EmptyString = str n.
Proof.
  intros Hn. unfold str. destruct (Z.ltb_spec n 0) as [Hneg|_]; [lia|].
  apply str_digits_fuel.
  replace (Z.of_nat (S (Z.to_nat (Z.log2 n)))) with (Z.succ (Z.log2 n))
    by (pose proof (Z.log2_nonneg n); lia).
  split; [exact Hn|].
  destruct (Z.eq_dec n 0) as [->|Hpos]; [cbn; lia|].
  pose proof (Z.log2_spec n ltac:(lia)) as [_ Hup].
  apply Z.lt_le_trans with (2 ^ Z.succ (Z.log2 n)); [exact Hup|].
  apply Z.pow_le_mono_l. lia.
Qed.

(** The whole text of the sample advisory: four lines, and the view is
    in the cache afterwards. *)
Lemma fort22_sample_runs :
  exists text self',
    fort22 sample_advisory = Ok (text, self') /\
    data_frame_cache self' = Some sample_frame /\
    String.length text = (4 * 165)%nat.
Proof.
  destruct (fort22 sample_advisory) as [[text self']|e] eqn:Hrun.
  - exists text, self'. split; [reflexivity|].
    vm_compute in Hrun. apply Ok_inj in Hrun.
    injection Hrun as Htext Hself. subst text self'. split; reflexivity.
  - vm_compute in Hrun. discriminate.
Qed.

(* ================================================================== *)
(** * Further properties                                               *)
(* ================================================================== *)

(** ** RecordNumberer: every input, and what the ids count *)

(** X1. The record numberer never raises: for every timestamp column it
    returns ids, as many as there are rows, except that an empty column
    still gets the one id the list starts with. *)
Theorem generate_record_numbers_total (dts : list datetime) :
  exists ids,
    _generate_record_numbers dts = Ok ids /\
    List.length ids = Nat.max 1 (List.length dts) /\
    (dts = [] -> ids = [1]).
Proof.
  destruct dts as [|d rest].
  - exists [1]. repeat split.
  - exists (1 :: number_from d 1 rest).
    split; [apply generate_record_numbers_cons|].
    split; [cbn; rewrite number_from_length; reflexivity | discriminate].
Qed.

Lemma unique_head_sorted (b : datetime) (r : list datetime) :
  StronglySorted Z.le (b :: r) ->
  exists u, unique (b :: r) = b :: u /\ forall x, In x u -> b < x.
Proof.
  intros Hs. inversion Hs as [|? ? _ Hall]; subst. rewrite Forall_forall in Hall.
  change (unique (b :: r)) with (unique_insert b (unique r)).
  pose proof (unique_sorted r) as Hus.
  destruct (unique r) as [|h u] eqn:Eu.
  - exists []. split; [reflexivity|]. intros x [].
  - assert (Hh : b <= h) by (apply Hall, unique_In; rewrite Eu; left; reflexivity).
    inversion Hus as [|? ? _ Hu]; subst. rewrite Forall_forall in Hu.
    cbn [unique_insert]. destruct (Z.ltb_spec b h) as [Hlt|Hge].
    + exists (h :: u). split; [reflexivity|].
      intros x [<-|Hx]; [exact Hlt|]. specialize (Hu x Hx). lia.
    + assert (E : b = h) by lia. subst h. rewrite Z.eqb_refl.
      exists u. split; [reflexivity|exact Hu].
Qed.

Lemma unique_length_cons_sorted (a b : datetime) (r : list datetime) :
  StronglySorted Z.le (a :: b :: r) ->
  List.length (unique (a :: b :: r))
  = (List.length (unique (b :: r)) + if (b =? a)%Z then 0 else 1)%nat.
Proof.
  intros Hs. inversion Hs as [|? ? Hbr Hall]; subst.
  inversion Hall as [|? ? Hab _]; subst.
  destruct (unique_head_sorted b r Hbr) as [u [Eu _]].
  change (unique (a :: b :: r)) with (unique_insert a (unique (b :: r))).
  rewrite Eu. cbn [unique_insert].
  destruct (Z.ltb_spec a b) as [Hlt|Hge].
  - destruct (Z.eqb_spec b a) as [E|_]; [lia|]. cbn [List.length]. lia.
  - assert (E : a = b) by lia. subst b. rewrite Z.eqb_refl. cbn [List.length]. lia.
Qed.

Lemma last_number_from (rest : list datetime) :
  forall prev id,
    StronglySorted Z.le (prev :: rest) ->
    last (id :: number_from prev id rest) 0
    = id + Z.of_nat (List.length (unique (prev :: rest))) - 1.
Proof.
  induction rest as [|d r IH]; intros prev id Hs.
  - cbn. lia.
  - cbn [number_from].
    set (id' := if d =? prev then id else id + 1).
    change (last (id :: id' :: number_from d id' r) 0)
      with (last (id' :: number_from d id' r) 0).
    inversion Hs as [|? ? Hdr _]; subst.
    rewrite (IH d id' Hdr), (unique_length_cons_sorted prev d r Hs).
    subst id'. destruct (d =? prev); lia.
Qed.

(** X2. On a non-empty time-ordered column the last id is the number of
    distinct timestamps: the ids count the synoptic instants. *)
Theorem last_record_number_counts_timestamps (dts : list datetime) (ids : list Z) :
  dts <> [] ->
  StronglySorted Z.le dts ->
  _generate_record_numbers dts = Ok ids ->
  last ids 0 = Z.of_nat (List.length (unique dts)).
Proof.
  intros Hne Hs Hrun. destruct dts as [|d rest]; [congruence|].
  rewrite generate_record_numbers_cons in Hrun. apply Ok_inj in Hrun. subst ids.
  rewrite (last_number_from rest d 1 Hs). lia.
Qed.

Lemma last_record_number_counts_timestamps_witness :
  last [1; 1; 2; 3; 3] 0 = Z.of_nat (List.length (unique [3; 3; 7; 9; 9])).
Proof.
  apply (last_record_number_counts_timestamps [3; 3; 7; 9; 9] [1; 1; 2; 3; 3]).
  - discriminate.
  - repeat constructor; lia.
  - reflexivity.
Defined.

(** ** VelocityEstimator: what it appends, and when it raises *)

Lemma mapM_length {A B : Type} (f : A -> result B) (l : list A) :
  forall bs, mapM f l = Ok bs -> List.length bs = List.length l.
Proof.
  induction l as [|a l IH]; intros bs Hrun; cbn [mapM] in Hrun.
  - apply Ok_inj in Hrun. subst bs. reflexivity.
  - destruct (f a); cbn [bind] in Hrun; [|discriminate].
    destruct (mapM f l) as [bs0|]; cbn [bind] in Hrun; [|discriminate].
    apply Ok_inj in Hrun. subst bs. cbn. rewrite (IH bs0 eq_refl). reflexivity.
Qed.

Lemma existsb_eq_In (a : datetime) (u : list datetime) :
  existsb (Z.eqb a) u = true <-> In a u.
Proof.
  rewrite existsb_exists. split.
  - intros [x [Hx E]]. apply Z.eqb_eq in E. subst x. exact Hx.
  - intros Hin. exists a. split; [exact Hin | apply Z.eqb_refl].
Qed.

Lemma flat_map_unique_insert_length {B : Type} (f : datetime -> list B)
    (a : datetime) (u : list datetime) :
  StronglySorted Z.lt u ->
  List.length (flat_map f (unique_insert a u))
  = (List.length (flat_map f u)
     + if existsb (Z.eqb a) u then 0 else List.length (f a))%nat.
Proof.
  induction 1 as [|h r Hr IH Hall]; [cbn; rewrite app_nil_r; lia|].
  rewrite Forall_forall in Hall. cbn [unique_insert existsb].
  destruct (Z.ltb_spec a h) as [Hlt|Hge].
  - destruct (Z.eqb_spec a h) as [E|_]; [lia|]. cbn [orb].
    destruct (existsb (Z.eqb a) r) eqn:Ex.
    + apply existsb_eq_In in Ex. specialize (Hall a Ex). lia.
    + change (flat_map f (a :: h :: r)) with (f a ++ flat_map f (h :: r)).
      rewrite length_app. apply Nat.add_comm.
  - destruct (Z.eqb_spec a h) as [E|Hne]; cbn [orb];
      [rewrite Nat.add_0_r; reflexivity|].
    change (flat_map f (h :: unique_insert a r))
      with (f h ++ flat_map f (unique_insert a r)).
    change (flat_map f (h :: r)) with (f h ++ flat_map f r).
    rewrite !length_app, IH, Nat.add_assoc. reflexivity.
Qed.

Lemma where_from_cons_length (k : nat) (a : datetime) (r u : list datetime) :
  StronglySorted Z.lt u ->
  List.length (flat_map (where_from k (a :: r)) u)
  = (List.length (flat_map (where_from (S k) r) u)
     + if existsb (Z.eqb a) u then 1 else 0)%nat.
Proof.
  induction 1 as [|h w Hw IH Hall]; [reflexivity|].
  rewrite Forall_forall in Hall.
  rewrite !flat_map_head, !length_app, IH. cbn [where_from existsb].
  destruct (Z.eqb_spec a h) as [E|Hne]; cbn [orb List.length].
  - subst h. destruct (existsb (Z.eqb a) w) eqn:Ex; [|lia].
    apply existsb_eq_In in Ex. specialize (Hall a Ex). lia.
  - lia.
Qed.

(** The groups of the unique timestamps hold every position once: they
    have as many entries as the column has rows, in any order of the
    rows. *)
Lemma groups_cover_length (t : list datetime) :
  forall k, List.length (flat_map (where_from k t) (unique t)) = List.length t.
Proof.
  induction t as [|a r IH]; intros k; [reflexivity|].
  change (unique (a :: r)) with (unique_insert a (unique r)).
  rewrite (where_from_cons_length k a r _ (unique_insert_sorted a _ (unique_sorted r))).
  rewrite (flat_map_unique_insert_length _ a _ (unique_sorted r)), IH.
  assert (Hin : existsb (Z.eqb a) (unique_insert a (unique r)) = true)
    by (apply existsb_eq_In, unique_insert_In; left; reflexivity).
  rewrite Hin. destruct (existsb (Z.eqb a) (unique r)) eqn:Ex; cbn [List.length].
  - lia.
  - rewrite (where_from_absent r a); [cbn; lia|].
    intros Hr. apply unique_In, existsb_eq_In in Hr. congruence.
Qed.

Lemma velocities_length {G : Geometry} (t : list datetime) (x y : list float)
    (vs : list (Z * Z)) :
  velocities t x y = Ok vs -> List.length vs = List.length t.
Proof.
  unfold velocities.
  destruct (mapM (velocity_group t x y) (unique t)) as [groups|] eqn:Hgroups;
    cbn [bind]; [|discriminate].
  intros E. apply Ok_inj in E. subst vs.
  rewrite <- (groups_cover_length t 0).
  revert groups Hgroups. generalize (unique t) as ds.
  induction ds as [|d ds IH]; intros groups Hrun; cbn [mapM] in Hrun.
  - apply Ok_inj in Hrun. subst groups. reflexivity.
  - destruct (velocity_group t x y d) as [g|] eqn:Hg; cbn [bind] in Hrun; [|discriminate].
    destruct (mapM (velocity_group t x y) ds) as [gs|]; cbn [bind] in Hrun;
      [|discriminate].
    apply Ok_inj in Hrun. subst groups.
    cbn [concat]. rewrite flat_map_head, !length_app, (IH gs eq_refl).
    unfold velocity_group in Hg. apply mapM_length in Hg. rewrite Hg.
    unfold where_eq. rewrite length_map. reflexivity.
Qed.

(** X3. When the velocity derivation returns, it has kept every entry of
    the direction and speed columns it was given and appended exactly one
    direction and one speed per row, whatever the order of the rows; the
    other columns are unchanged. *)
Theorem compute_velocity_appends_one_per_row {G : Geometry} (data out : Data.t) :
  _compute_velocity data = Ok out ->
  exists directions speeds,
    Data.direction out
    = Some (match Data.direction data with Some l => l | None => [] end
              ++ directions) /\
    Data.speed out
    = Some (match Data.speed data with Some l => l | None => [] end ++ speeds) /\
    List.length directions = List.length (Data.datetime data) /\
    List.length speeds = List.length (Data.datetime data) /\
    Data.datetime out = Data.datetime data /\
    Data.longitude out = Data.longitude data /\
    Data.latitude out = Data.latitude data.
Proof.
  unfold _compute_velocity.
  destruct (velocities _ _ _) as [vs|] eqn:Hvs; cbn [bind]; [|discriminate].
  intros E. apply Ok_inj in E. subst out.
  exists (map fst vs), (map snd vs). cbn.
  rewrite !length_map, (velocities_length _ _ _ vs Hvs). repeat split.
Qed.

Lemma compute_velocity_appends_one_per_row_witness :
  exists out directions speeds,
    @_compute_velocity flat_geometry (still_data [6; 0; 6; 12]) = Ok out /\
    Data.direction out = Some ([] ++ directions) /\
    Data.speed out = Some ([] ++ speeds) /\
    List.length directions = 4%nat /\ List.length speeds = 4%nat.
Proof.
  destruct (@_compute_velocity flat_geometry (still_data [6; 0; 6; 12]))
    as [out|e] eqn:Hrun; [|vm_compute in Hrun; discriminate].
  destruct (@compute_velocity_appends_one_per_row flat_geometry _ out Hrun)
    as [directions [speeds [Hd [Hs [Hld [Hls _]]]]]].
  exists out, directions, speeds. repeat split; assumption.
Defined.

(** X4. On columns of equal length the only exception of the velocity
    derivation is [ZeroDivisionError]: the look-ups at [indexes[-1] + 1] and
    [indexes[0] - 1] never leave the columns (the index -1 wraps to the last
    row). *)
Theorem compute_velocity_raises_only_zero_division {G : Geometry} (data : Data.t) :
  List.length (Data.longitude data) = List.length (Data.datetime data) ->
  List.length (Data.latitude data) = List.length (Data.datetime data) ->
  (exists out, _compute_velocity data = Ok out) \/
  _compute_velocity data = Raise ZeroDivisionError.
Proof.
  intros Hlon Hlat.
  destruct (projected_columns_length _ _ _ Hlon Hlat) as [Hx Hy].
  cbn zeta in Hx, Hy. unfold _compute_velocity, velocities.
  match type of Hx with
  | List.length ?x = _ =>
      match type of Hy with
      | List.length ?y = _ =>
          destruct (mapM_outcome (velocity_group (Data.datetime data) x y)
                      ZeroDivisionError (unique (Data.datetime data)))
            as [[groups [Hgroups _]]|[Hraise _]]
      end
  end.
  - intros d _.
    destruct (velocity_group_cases _ _ _ Hx Hy d) as [[vs [Hvs _]]|[Hr _]];
      [left; exists vs; exact Hvs | right; exact Hr].
  - left. rewrite Hgroups. cbn [bind]. eexists; reflexivity.
  - right. rewrite Hraise. reflexivity.
Qed.

Lemma compute_velocity_raises_only_zero_division_witness :
  (exists out, @_compute_velocity flat_geometry (still_data [6; 0; 6]) = Ok out) \/
  @_compute_velocity flat_geometry (still_data [6; 0; 6]) = Raise ZeroDivisionError.
Proof.
  apply (@compute_velocity_raises_only_zero_division flat_geometry
           (still_data [6; 0; 6])); reflexivity.
Defined.

Lemma where_from_ascending (t : list datetime) (d : datetime) :
  forall k,
    StronglySorted Z.le (map Z.of_nat (where_from k t d)) /\
    Forall (fun x => Z.of_nat k <= x) (map Z.of_nat (where_from k t d)).
Proof.
  induction t as [|h r IH]; intros k; cbn [where_from].
  - split; constructor.
  - destruct (IH (S k)) as [Hs Hall].
    assert (Hweak : Forall (fun x => Z.of_nat k <= x)
                      (map Z.of_nat (where_from (S k) r d))).
    { rewrite Forall_forall in Hall |- *. intros x Hx. specialize (Hall x Hx). lia. }
    destruct (h =? d); [|split; assumption].
    cbn [map]. split; constructor; try assumption. lia.
Qed.

Lemma py_index_minus_one_nth {A : Type} (l : list A) (b : A) :
  py_index l (-1) = Ok b -> nth_error l (List.length l - 1) = Some b.
Proof.
  unfold py_index, len. change (-1 <? 0) with true. cbv beta iota zeta.
  destruct (Z.ltb_spec (Z.of_nat (List.length l) + -1) 0) as [Hneg|Hpos];
    [discriminate|].
  replace (Z.to_nat (Z.of_nat (List.length l) + -1)) with (List.length l - 1)%nat
    by lia.
  destruct (nth_error l (List.length l - 1)); [|discriminate].
  intros E. apply Ok_inj in E. subst. reflexivity.
Qed.

Lemma py_index_zero_nth {A : Type} (l : list A) (a : A) :
  py_index l 0 = Ok a -> nth_error l 0 = Some a.
Proof.
  change 0 with (Z.of_nat 0). rewrite py_index_of_nat.
  destruct (nth_error l 0); [|discriminate].
  intros E. apply Ok_inj in E. subst. reflexivity.
Qed.

(** On a time-ordered column the time difference of every fix is
    positive, unless the first and the last timestamp coincide: then it is
    zero. *)
Lemma fix_hours_sorted (t : list datetime) (i : nat) (a b : datetime) :
  StronglySorted Z.le t ->
  (i < List.length t)%nat ->
  py_index t 0 = Ok a ->
  py_index t (-1) = Ok b ->
  exists h, fix_hours t i = Ok h /\ 0 <= h /\ (h = 0 <-> a = b).
Proof.
  intros Hs Hi Ha Hb.
  destruct (nth_error_in_range t i Hi) as [d Hd].
  apply py_index_zero_nth in Ha.
  pose proof (py_index_minus_one_nth t b Hb) as Hb_nth.
  unfold fix_hours. rewrite Hd.
  assert (Hin : In (Z.of_nat i) (where_eq t d))
    by (apply where_eq_In; exists i; split; [reflexivity|exact Hd]).
  assert (Hlen : 0 < len (where_eq t d)).
  { destruct (where_eq t d); [destruct Hin | unfold len; cbn; lia]. }
  destruct (py_index_total (where_eq t d) (-1)) as [final Hfinal]; [lia|].
  destruct (py_index_total (where_eq t d) 0) as [first Hfirst]; [lia|].
  pose proof (sorted_first_last (where_eq t d) first final
                (proj1 (where_from_ascending t d 0)) Hfirst Hfinal) as Hspan.
  destruct (proj1 (where_eq_In t d final) (py_index_In _ _ _ Hfinal))
    as [jl [-> Hjl]].
  destruct (proj1 (where_eq_In t d first) (py_index_In _ _ _ Hfirst))
    as [jf [-> Hjf]].
  assert (Hjl_lt : (jl < List.length t)%nat) by (apply nth_error_Some; congruence).
  assert (Had : a <= d) by (apply (sorted_nth_le t Hs 0 jl a d); [lia|assumption..]).
  assert (Hdb : d <= b)
    by (apply (sorted_nth_le t Hs jl (List.length t - 1) d b); [lia|assumption..]).
  unfold reference_hours. rewrite Hfinal. cbn [bind].
  rewrite (py_index_nat t i d Hd).
  unfold len. destruct (Z.ltb_spec (Z.of_nat jl + 1) (Z.of_nat (List.length t)))
    as [Hnext|Hend].
  - destruct (nth_error_in_range t (S jl)) as [tn Htn]; [lia|].
    replace (Z.of_nat jl + 1) with (Z.of_nat (S jl)) by lia.
    rewrite (py_index_nat t (S jl) tn Htn). cbn [bind].
    assert (Hne : tn <> d).
    { intros E. subst tn.
      assert (Hmem : In (Z.of_nat (S jl)) (where_eq t d))
        by (apply where_eq_In; exists (S jl); split; [reflexivity|exact Htn]).
      specialize (Hspan _ Hmem). lia. }
    assert (Hle : d <= tn)
      by (apply (sorted_nth_le t Hs jl (S jl) d tn); [lia|assumption..]).
    assert (Htb : tn <= b)
      by (apply (sorted_nth_le t Hs (S jl) (List.length t - 1) tn b);
          [lia|assumption..]).
    exists (tn - d). split; [reflexivity|]. split; [lia|]. split; lia.
  - assert (Ejl : jl = (List.length t - 1)%nat) by lia.
    assert (Edb : d = b) by (subst jl; congruence).
    rewrite Hfirst. cbn [bind]. destruct jf as [|jf'].
    + change (Z.of_nat 0 - 1) with (-1). rewrite Hb. cbn [bind].
      assert (Ead : a = d) by congruence.
      exists (d - b). split; [reflexivity|]. split; [lia|]. split; lia.
    + destruct (nth_error_in_range t jf') as [tp Htp].
      { assert (S jf' < List.length t)%nat by (apply nth_error_Some; congruence). lia. }
      replace (Z.of_nat (S jf') - 1) with (Z.of_nat jf') by lia.
      rewrite (py_index_nat t jf' tp Htp). cbn [bind].
      assert (Hne : tp <> d).
      { intros E. subst tp.
        assert (Hmem : In (Z.of_nat jf') (where_eq t d))
          by (apply where_eq_In; exists jf'; split; [reflexivity|exact Htp]).
        specialize (Hspan _ Hmem). lia. }
      assert (Hle : tp <= d)
        by (apply (sorted_nth_le t Hs jf' (S jf') tp d); [lia|assumption..]).
      assert (Hat : a <= tp)
        by (apply (sorted_nth_le t Hs 0 jf' a tp); [lia|assumption..]).
      exists (d - tp). split; [reflexivity|]. split; [lia|]. split; lia.
Qed.

(** X5. On time-ordered columns of equal length the velocity derivation
    returns exactly when the first and the last timestamp differ, and then
    every fix has a positive time difference to its reference neighbour (the
    last group reuses the backward difference); when they coincide, as for a
    single fix, it raises [ZeroDivisionError]. An empty column returns. *)
Theorem compute_velocity_time_ordered {G : Geometry} (data : Data.t) :
  List.length (Data.longitude data) = List.length (Data.datetime data) ->
  List.length (Data.latitude data) = List.length (Data.datetime data) ->
  StronglySorted Z.le (Data.datetime data) ->
  (Data.datetime data = [] -> exists out, _compute_velocity data = Ok out) /\
  (forall a b,
      py_index (Data.datetime data) 0 = Ok a ->
      py_index (Data.datetime data) (-1) = Ok b ->
      (a = b -> _compute_velocity data = Raise ZeroDivisionError) /\
      (a <> b ->
       (exists out, _compute_velocity data = Ok out) /\
       forall i, (i < List.length (Data.datetime data))%nat ->
                 exists h, fix_hours (Data.datetime data) i = Ok h /\ 0 < h)).
Proof.
  intros Hlon Hlat Hs.
  destruct (projected_columns_length _ _ _ Hlon Hlat) as [Hx Hy].
  cbn zeta in Hx, Hy. split.
  - intros Hempty. unfold _compute_velocity, velocities. rewrite Hempty. cbn.
    eexists; reflexivity.
  - intros a b Ha Hb. split.
    + intros Eab. unfold _compute_velocity.
      rewrite (velocities_raise _ _ _ Hx Hy); [reflexivity|].
      exists 0%nat.
      assert (H0 : (0 < List.length (Data.datetime data))%nat).
      { apply py_index_zero_nth in Ha. apply nth_error_Some. congruence. }
      destruct (fix_hours_sorted _ 0 a b Hs H0 Ha Hb) as [h [Hh [_ Hzero]]].
      rewrite Hh. f_equal. apply Hzero. exact Eab.
    + intros Hab.
      assert (Hpos : forall i, (i < List.length (Data.datetime data))%nat ->
                               exists h, fix_hours (Data.datetime data) i = Ok h /\ 0 < h).
      { intros i Hi.
        destruct (fix_hours_sorted _ i a b Hs Hi Ha Hb) as [h [Hh [Hnn Hzero]]].
        exists h. split; [exact Hh|].
        destruct (Z.eq_dec h 0) as [E|Hne]; [exfalso; apply Hab, Hzero, E | lia]. }
      split; [|exact Hpos].
      unfold _compute_velocity.
      destruct (velocities_return _ _ _ Hx Hy) as [vs Hvs].
      * intros i Hi E. destruct (Hpos i Hi) as [h [Hh Hlt]].
        rewrite Hh in E. apply Ok_inj in E. lia.
      * rewrite Hvs. cbn [bind]. eexists; reflexivity.
Qed.

Lemma compute_velocity_time_ordered_witness :
  @_compute_velocity flat_geometry (still_data [3; 3; 3]) = Raise ZeroDivisionError /\
  (exists out, @_compute_velocity flat_geometry (still_data [0; 6; 6; 12]) = Ok out).
Proof.
  split.
  - apply (proj2 (@compute_velocity_time_ordered flat_geometry (still_data [3; 3; 3])
                    eq_refl eq_refl ltac:(cbn; repeat constructor; lia))
             3 3 eq_refl eq_refl).
    reflexivity.
  - apply (proj2 (@compute_velocity_time_ordered flat_geometry
                    (still_data [0; 6; 6; 12])
                    eq_refl eq_refl ltac:(cbn; repeat constructor; lia))
             0 12 eq_refl eq_refl).
    lia.
Defined.

(** ** AdvisoryDataset: when [_df] returns and what its rows hold *)

Lemma DataFrame_row_facts (data : Data.t) (df : list DataRow.t) :
  DataFrame data = Ok df ->
  List.length df = List.length (Data.datetime data) /\
  forall r,
    In r df ->
    DataRow.storm_number r = Data.storm_number data /\
    DataRow.name r = Data.name data /\
    DataRow.isotach r = None /\ DataRow.quadrant r = None /\
    DataRow.radius_for_NEQ r = None /\ DataRow.radius_for_SEQ r = None /\
    DataRow.radius_for_SWQ r = None /\ DataRow.radius_for_NWQ r = None /\
    DataRow.background_pressure r = None /\
    DataRow.radius_of_last_closed_isobar r = None /\
    DataRow.radius_of_maximum_winds r = None /\
    (Data.direction data <> None -> DataRow.direction r <> None) /\
    (Data.speed data <> None -> DataRow.speed r <> None).
Proof.
  unfold DataFrame.
  match goal with
  | |- (if ?c then _ else _) = _ -> _ => destruct c eqn:Hlen; [|discriminate]
  end.
  rewrite !andb_true_iff in Hlen.
  destruct Hlen as [[_ Hdir] Hspd].
  intros Hdf. apply Ok_inj in Hdf. subst df.
  split; [rewrite length_map, length_seq; reflexivity|].
  intros r Hr. apply in_map_iff in Hr. destruct Hr as [k [<- Hk]].
  apply in_seq in Hk. cbn.
  repeat split.
  - intros Hne. destruct (Data.direction data) as [l|]; [|congruence].
    cbn in Hdir. apply Nat.eqb_eq in Hdir. apply nth_error_Some. lia.
  - intros Hne. destruct (Data.speed data) as [l|]; [|congruence].
    cbn in Hspd. apply Nat.eqb_eq in Hspd. apply nth_error_Some. lia.
Qed.

(** X6. Every row of a dataset that [_df] builds carries the storm number
    parsed from the third and fourth character of the storm id and the name
    of the storm, a direction and a speed, and no isotach, quadrant, wind
    radii, background pressure, radius of the last closed isobar or radius
    of maximum winds. *)
Theorem df_rows {G : Geometry} (storm : Storm.t) (df : list DataRow.t) :
  _df storm = Ok df ->
  forall r,
    In r df ->
    int_of_str (substring 2 2 (Storm.id storm)) = Ok (DataRow.storm_number r) /\
    DataRow.name r = Storm.name storm /\
    DataRow.direction r <> None /\ DataRow.speed r <> None /\
    DataRow.isotach r = None /\ DataRow.quadrant r = None /\
    DataRow.radius_for_NEQ r = None /\ DataRow.radius_for_SEQ r = None /\
    DataRow.radius_for_SWQ r = None /\ DataRow.radius_for_NWQ r = None /\
    DataRow.background_pressure r = None /\
    DataRow.radius_of_last_closed_isobar r = None /\
    DataRow.radius_of_maximum_winds r = None.
Proof.
  intros Hrun r Hr. unfold _df in Hrun.
  destruct (storm_data storm) as [data|] eqn:Hdata; cbn [bind] in Hrun;
    [|discriminate].
  destruct (_compute_velocity data) as [out|] eqn:Hout; cbn [bind] in Hrun;
    [|discriminate].
  unfold storm_data in Hdata.
  destruct (int_of_str _) as [n|] eqn:Hn; cbn [bind] in Hdata; [|discriminate].
  apply Ok_inj in Hdata. subst data.
  unfold _compute_velocity in Hout.
  destruct (velocities _ _ _) as [vs|]; cbn [bind] in Hout; [|discriminate].
  apply Ok_inj in Hout. subst out.
  destruct (DataFrame_row_facts _ df Hrun) as [_ Hfacts].
  destruct (Hfacts r Hr)
    as [Hnum [Hname [H1 [H2 [H3 [H4 [H5 [H6 [H7 [H8 [H9 [Hd Hs]]]]]]]]]]]].
  cbn in Hnum, Hname, Hd, Hs. rewrite Hnum.
  repeat split; try assumption; [apply Hd | apply Hs]; discriminate.
Qed.

Lemma df_rows_witness :
  Forall (fun r =>
            int_of_str (substring 2 2 (Storm.id repeated_storm))
            = Ok (DataRow.storm_number r) /\
            DataRow.name r = Storm.name repeated_storm /\
            DataRow.direction r <> None /\ DataRow.speed r <> None /\
            DataRow.isotach r = None /\ DataRow.quadrant r = None /\
            DataRow.radius_for_NEQ r = None /\ DataRow.radius_for_SEQ r = None /\
            DataRow.radius_for_SWQ r = None /\ DataRow.radius_for_NWQ r = None /\
            DataRow.background_pressure r = None /\
            DataRow.radius_of_last_closed_isobar r = None /\
            DataRow.radius_of_maximum_winds r = None)
    repeated_frame.
Proof.
  apply Forall_forall.
  apply (@df_rows flat_geometry repeated_storm repeated_frame).
  vm_compute. reflexivity.
Defined.

Section DatasetOutcome.
Context {G : Geometry}.
Variables (storm : Storm.t) (n : Z).
Hypothesis Hid : int_of_str (substring 2 2 (Storm.id storm)) = Ok n.
Hypothesis Hbasin : List.length (Storm.wmo_basin storm) = List.length (Storm.date storm).
Hypothesis Hspecial : List.length (Storm.special storm) = List.length (Storm.date storm).
Hypothesis Hlat : List.length (Storm.lat storm) = List.length (Storm.date storm).
Hypothesis Hlon : List.length (Storm.lon storm) = List.length (Storm.date storm).
Hypothesis Hvmax : List.length (Storm.vmax storm) = List.length (Storm.date storm).
Hypothesis Hmslp : List.length (Storm.mslp storm) = List.length (Storm.date storm).
Hypothesis Htype : List.length (Storm.type storm) = List.length (Storm.date storm).
Hypothesis Hsorted : StronglySorted Z.le (Storm.date storm).

Lemma df_raises_when_first_is_last (a : datetime) :
  py_index (Storm.date storm) 0 = Ok a ->
  py_index (Storm.date storm) (-1) = Ok a ->
  _df storm = Raise ZeroDivisionError.
Proof.
  intros Ha Hb. unfold _df, storm_data. rewrite Hid. cbn [bind].
  destruct (projected_columns_length _ _ _ Hlon Hlat) as [Hx Hy].
  cbn zeta in Hx, Hy. unfold _compute_velocity. cbn [Data.longitude Data.latitude
    Data.datetime Data.direction Data.speed].
  rewrite (velocities_raise _ _ _ Hx Hy); [reflexivity|].
  exists 0%nat.
  assert (H0 : (0 < List.length (Storm.date storm))%nat).
  { apply py_index_zero_nth in Ha. apply nth_error_Some. congruence. }
  destruct (fix_hours_sorted _ 0 a a Hsorted H0 Ha Hb) as [h [Hh [_ Hzero]]].
  rewrite Hh. f_equal. apply Hzero. reflexivity.
Qed.

Lemma df_returns_when_first_is_not_last (a b : datetime) :
  py_index (Storm.date storm) 0 = Ok a ->
  py_index (Storm.date storm) (-1) = Ok b ->
  a <> b ->
  exists df, _df storm = Ok df /\ List.length df = List.length (Storm.date storm).
Proof.
  intros Ha Hb Hab. unfold _df, storm_data. rewrite Hid. cbn [bind].
  destruct (projected_columns_length _ _ _ Hlon Hlat) as [Hx Hy].
  cbn zeta in Hx, Hy. unfold _compute_velocity. cbn [Data.longitude Data.latitude
    Data.datetime Data.direction Data.speed].
  destruct (velocities_return _ _ _ Hx Hy) as [vs Hvs].
  { intros i Hi E.
    destruct (fix_hours_sorted _ i a b Hsorted Hi Ha Hb) as [h [Hh [_ Hzero]]].
    rewrite Hh in E. apply Ok_inj in E. apply Hab, Hzero, E. }
  rewrite Hvs. cbn [bind].
  pose proof (velocities_length _ _ _ vs Hvs) as Hlen.
  unfold DataFrame, same_length, same_length_opt.
  cbn [Data.basin Data.storm_number Data.datetime Data.record_type Data.latitude
         Data.longitude Data.max_sustained_wind_speed Data.central_pressure
         Data.development_level Data.name Data.direction Data.speed app].
  unfold same_length.
  rewrite !length_map, Hlen, Hbasin, Hspecial, Hlat, Hlon, Hvmax, Hmslp, Htype.
  rewrite !Nat.eqb_refl. cbn [andb].
  eexists. split; [reflexivity|].
  rewrite length_map, length_seq. reflexivity.
Qed.

End DatasetOutcome.

(** X7. For a storm whose id has digits in its third and fourth place,
    whose columns have one length and whose fixes are time-ordered, [_df]
    returns a dataset, one row per fix, when the first and the last
    timestamp differ; when they coincide, as for a storm with a single fix,
    it raises [ZeroDivisionError]. *)
Theorem df_time_ordered {G : Geometry} (storm : Storm.t) (n : Z) (a b : datetime) :
  int_of_str (substring 2 2 (Storm.id storm)) = Ok n ->
  List.length (Storm.wmo_basin storm) = List.length (Storm.date storm) ->
  List.length (Storm.special storm) = List.length (Storm.date storm) ->
  List.length (Storm.lat storm) = List.length (Storm.date storm) ->
  List.length (Storm.lon storm) = List.length (Storm.date storm) ->
  List.length (Storm.vmax storm) = List.length (Storm.date storm) ->
  List.length (Storm.mslp storm) = List.length (Storm.date storm) ->
  List.length (Storm.type storm) = List.length (Storm.date storm) ->
  StronglySorted Z.le (Storm.date storm) ->
  py_index (Storm.date storm) 0 = Ok a ->
  py_index (Storm.date storm) (-1) = Ok b ->
  (a = b -> _df storm = Raise ZeroDivisionError) /\
  (a <> b ->
   exists df, _df storm = Ok df /\ List.length df = List.length (Storm.date storm)).
Proof.
  intros Hid H1 H2 H3 H4 H5 H6 H7 Hs Ha Hb. split.
  - intros E. subst b.
    exact (df_raises_when_first_is_last storm n Hid H3 H4 Hs a Ha Hb).
  - intros Hab.
    exact (df_returns_when_first_is_not_last storm n Hid H1 H2 H3 H4 H5 H6 H7 Hs
             a b Ha Hb Hab).
Qed.

Lemma df_time_ordered_witness :
  @_df flat_geometry single_fix_storm = Raise ZeroDivisionError /\
  exists df, @_df flat_geometry sample_storm = Ok df /\ List.length df = 2%nat.
Proof.
  split.
  - apply (proj1 (@df_time_ordered flat_geometry single_fix_storm 9 0 0
                    eq_refl eq_refl eq_refl eq_refl eq_refl eq_refl eq_refl eq_refl
                    ltac:(cbn; repeat constructor) eq_refl eq_refl)).
    reflexivity.
  - apply (proj2 (@df_time_ordered flat_geometry sample_storm 9 0 6
                    eq_refl eq_refl eq_refl eq_refl eq_refl eq_refl eq_refl eq_refl
                    ltac:(cbn; repeat constructor; lia) eq_refl eq_refl)).
    lia.
Defined.

(** ** Region clipping: missing radii, and a storm that stays outside *)

(** The rows that [_df] builds have no background pressure and no radius
    of the last closed isobar. *)
Lemma df_rows_blank_columns {G : Geometry} (storm : Storm.t) (df : list DataRow.t) :
  _df storm = Ok df ->
  forall r,
    In r df ->
    DataRow.background_pressure r = None /\ DataRow.radius_of_last_closed_isobar r = None.
Proof.
  intros Hrun r Hr.
  destruct (df_unfold storm df Hrun) as [data [out [_ [_ [_ [_ [_ Hframe]]]]]]].
  destruct (DataFrame_row_facts out df Hframe) as [_ Hfacts].
  destruct (Hfacts r Hr) as [_ [_ [_ [_ [_ [_ [_ [_ [Hbp [Hrad _]]]]]]]]]].
  split; assumption.
Qed.

Section ClippingEdges.
Context {G : Geometry}.

Lemma pol_intersects_without_radius (self : NHCAdvisory)
    (pol : list (float * float)) (d : datetime) :
  (forall r, In r (__df self) -> DataRow.radius_of_last_closed_isobar r = None) ->
  In d (column DataRow.datetime (__df self)) ->
  pol_intersects self pol d = Raise TypeError.
Proof.
  intros Hnone Hd. unfold column in Hd. apply in_map_iff in Hd.
  destruct Hd as [r [Hr Hin]].
  assert (Hrec : In r (records_at self d)).
  { unfold records_at. apply filter_In. split; [exact Hin|].
    apply Z.eqb_eq. exact Hr. }
  unfold pol_intersects.
  destruct (records_at self d) as [|r0 rs] eqn:E; [destruct Hrec|].
  assert (Hr0 : In r0 (__df self)).
  { assert (H0 : In r0 (records_at self d)) by (rewrite E; left; reflexivity).
    unfold records_at in H0. apply filter_In in H0. exact (proj1 H0). }
  unfold column. cbn [map]. rewrite py_index_head. cbn [bind].
  rewrite (Hnone r0 Hr0). reflexivity.
Qed.

(** X8. Region clipping cannot run on a dataset that [_df] has built: no
    row has a radius of the last closed isobar, and the scan raises
    [TypeError] at the first timestamp. Only the empty dataset, which has
    no timestamp to scan, is returned unchanged. *)
Theorem clip_to_bbox_on_df_raises (storm : Storm.t) (df : list DataRow.t)
    (self : NHCAdvisory) (bbox : Bbox) :
  _df storm = Ok df ->
  __df self = df ->
  (df <> [] -> clip_to_bbox self bbox = Raise TypeError) /\
  (df = [] -> clip_to_bbox self bbox = Ok self).
Proof.
  intros Hrun Hdf. split.
  - intros Hne. unfold clip_to_bbox.
    destruct (unique (column DataRow.datetime (__df self))) as [|d rest] eqn:Hu.
    + exfalso. destruct df as [|r0 df']; [congruence|].
      assert (Hin : In (DataRow.datetime r0) (unique (column DataRow.datetime (__df self))))
        by (apply unique_In; rewrite Hdf; left; reflexivity).
      rewrite Hu in Hin. destruct Hin.
    + cbn [clip_loop].
      rewrite pol_intersects_without_radius; [reflexivity| |].
      * intros r Hr. rewrite Hdf in Hr.
        exact (proj2 (df_rows_blank_columns storm df Hrun r Hr)).
      * apply unique_In. rewrite Hu. left. reflexivity.
  - intros Hempty. unfold clip_to_bbox. rewrite Hdf, Hempty. reflexivity.
Qed.

(** Entry phase: while no circle meets the region nothing is written. *)
Lemma clip_loop_entry_none (pol : list (float * float)) (self : NHCAdvisory) :
  forall dates,
    (forall d, In d dates -> pol_intersects self pol d = Ok false) ->
    clip_loop pol dates true self = Ok self.
Proof.
  induction dates as [|d rest IH]; intros Hall; [reflexivity|].
  cbn [clip_loop]. rewrite (Hall d (or_introl eq_refl)). cbn [bind negb].
  apply IH. intros d' Hd'. apply Hall. right; exact Hd'.
Qed.

(** X9. When the circle of no timestamp meets the region (the storm stays
    outside), region clipping returns the instance as it was: neither
    bound is written. *)
Theorem clip_to_bbox_never_enters (self : NHCAdvisory) (bbox : Bbox) :
  (forall d, In d (column DataRow.datetime (__df self)) ->
             pol_intersects self (bbox_polygon bbox) d = Ok false) ->
  clip_to_bbox self bbox = Ok self.
Proof.
  intros Hall. unfold clip_to_bbox. apply clip_loop_entry_none.
  intros d Hd. apply Hall. apply unique_In. exact Hd.
Qed.

End ClippingEdges.

Lemma clip_to_bbox_on_df_raises_witness :
  @clip_to_bbox flat_geometry (fresh_advisory repeated_frame) sample_bbox
  = Raise TypeError.
Proof.
  apply (proj1 (@clip_to_bbox_on_df_raises flat_geometry repeated_storm
                  repeated_frame (fresh_advisory repeated_frame) sample_bbox
                  ltac:(vm_compute; reflexivity) eq_refl)).
  discriminate.
Defined.

Lemma clip_to_bbox_never_enters_witness :
  @clip_to_bbox flat_geometry outside_advisory sample_bbox = Ok outside_advisory.
Proof.
  apply (@clip_to_bbox_never_enters flat_geometry outside_advisory sample_bbox).
  intros d Hd. cbn in Hd. destruct Hd as [<-|[<-|[<-|[]]]]; reflexivity.
Defined.

(** ** DateWindow: validated bounds, defaults and an inverted window *)

Lemma set_start_date_inv (self self' : NHCAdvisory) (d : datetime) :
  set_start_date self d = Ok self' ->
  exists first final,
    py_index (column DataRow.datetime (__df self)) 0 = Ok first /\
    py_index (column DataRow.datetime (__df self)) (-1) = Ok final /\
    first <= d < final /\ self' = with_start_date self d.
Proof.
  unfold set_start_date, _start_date_setter. cbn [bind].
  destruct (py_index (column DataRow.datetime (__df self)) 0) as [first|];
    cbn [bind]; [|discriminate].
  destruct (py_index (column DataRow.datetime (__df self)) (-1)) as [final|];
    cbn [bind]; [|discriminate].
  destruct (Z.leb_spec first d), (Z.ltb_spec d final); cbn [andb assert bind];
    try discriminate.
  intros E. apply Ok_inj in E. exists first, final. repeat split; auto.
Qed.

Lemma set_end_date_inv (self self' : NHCAdvisory) (e : datetime) :
  set_end_date self e = Ok self' ->
  exists first final s,
    py_index (column DataRow.datetime (__df self)) 0 = Ok first /\
    py_index (column DataRow.datetime (__df self)) (-1) = Ok final /\
    __start_date self = Some s /\
    first < e <= final /\ s < e /\ self' = with_end_date self e.
Proof.
  unfold set_end_date, _end_date_setter, start_date. cbn [bind].
  destruct (py_index (column DataRow.datetime (__df self)) 0) as [first|];
    cbn [bind]; [|discriminate].
  destruct (py_index (column DataRow.datetime (__df self)) (-1)) as [final|];
    cbn [bind]; [|discriminate].
  destruct (Z.ltb_spec first e), (Z.leb_spec e final); cbn [andb assert bind];
    try discriminate.
  destruct (__start_date self) as [s|]; cbn [getattr bind]; [|discriminate].
  destruct (Z.ltb_spec s e); cbn [assert bind]; [|discriminate].
  intros E. apply Ok_inj in E. exists first, final, s. repeat split; auto.
Qed.

(** Where some timestamp is not before [end_date], the loop of
    [_file_end_date] finds the least such one. *)
Lemma file_end_date_loop_finds (self : NHCAdvisory) (e : datetime) :
  __end_date self = Some e ->
  forall dates,
    (exists d, In d dates /\ e <= d) ->
    StronglySorted Z.lt dates ->
    exists m,
      _file_end_date_loop self dates = Ok (Some m) /\
      In m dates /\ e <= m /\ forall d, In d dates -> e <= d -> m <= d.
Proof.
  intros He dates. induction dates as [|h r IH]; intros [d [Hd Hed]] Hs.
  - destruct Hd.
  - cbn [_file_end_date_loop]. unfold end_date. rewrite He. cbn [getattr bind].
    inversion Hs as [|? ? Hr Hall]; subst. rewrite Forall_forall in Hall.
    destruct (Z.leb_spec e h) as [Hle|Hgt].
    + exists h. split; [reflexivity|]. split; [left; reflexivity|].
      split; [exact Hle|]. intros x [<-|Hx] _; [lia|]. specialize (Hall x Hx). lia.
    + destruct Hd as [<-|Hd]; [lia|].
      destruct (IH (ex_intro _ d (conj Hd Hed)) Hr) as [m [Hrun [Hm [Hem Hleast]]]].
      exists m. split; [exact Hrun|]. split; [right; exact Hm|].
      split; [exact Hem|]. intros x [<-|Hx] Hex; [lia|]. apply Hleast; assumption.
Qed.

(** After [start_date] and then [end_date] have been assigned, the first
    read of the view returns, and the view holds the rows of the marker
    timestamp. *)
Lemma validated_window_view (self0 self1 self2 : NHCAdvisory) (s e : datetime) :
  data_frame_cache self0 = None ->
  set_start_date self0 s = Ok self1 ->
  set_end_date self1 e = Ok self2 ->
  exists m r,
    data_frame self2
    = Ok (filter (in_window s m) (__df self0),
          with_data_frame_cache self2 (filter (in_window s m) (__df self0))) /\
    In m (column DataRow.datetime (__df self0)) /\ s < e /\ e <= m /\
    (forall d, In d (column DataRow.datetime (__df self0)) -> e <= d -> m <= d) /\
    In r (filter (in_window s m) (__df self0)) /\ DataRow.datetime r = m.
Proof.
  intros Hcache Hstart Hend.
  destruct (set_start_date_inv _ _ _ Hstart) as [first [final [_ [_ [_ E1]]]]].
  subst self1.
  destruct (set_end_date_inv _ _ _ Hend) as [first' [final' [s' [_ [Hfinal [Hs' [He [Hse E2]]]]]]]].
  subst self2. cbn in Hs', Hfinal.
  assert (Es : s' = s) by congruence. subst s'.
  destruct (file_end_date_loop_finds
              (with_end_date (with_start_date self0 s) e) e eq_refl
              (unique (column DataRow.datetime (__df self0))))
    as [m [Hrun [Hm [Hem Hleast]]]].
  - exists final'. split; [|lia]. apply unique_In. eapply py_index_In; exact Hfinal.
  - apply unique_sorted.
  - apply (proj1 (unique_In _ _)) in Hm.
    assert (Hrow : exists r, In r (__df self0) /\ DataRow.datetime r = m).
    { unfold column in Hm. apply in_map_iff in Hm. destruct Hm as [r [Hr Hin]].
      exists r. split; assumption. }
    destruct Hrow as [r [Hr Hrm]].
    exists m, r. split; [|split; [exact Hm|
                                  split; [exact Hse|split; [exact Hem|split; [|split]]]]].
    + unfold data_frame. cbn [data_frame_cache with_end_date with_start_date].
      rewrite Hcache. unfold data_frame_body, start_date, _file_end_date.
      cbn [__start_date __df with_end_date with_start_date getattr bind].
      cbn [__df with_end_date with_start_date] in Hrun. rewrite Hrun. reflexivity.
    + intros d Hd. apply Hleast. apply unique_In. exact Hd.
    + apply filter_In. split; [exact Hr|]. unfold in_window.
      apply andb_true_iff. split; apply Z.leb_le; lia.
    + exact Hrm.
Qed.

(** X10. Once [start_date] and then [end_date] have been assigned, the
    first read of the windowed view returns and is stored. The view is not
    empty: it holds exactly the rows of the dataset from [start_date] to the
    marker, the least timestamp of the dataset that is not before
    [end_date]. *)
Theorem data_frame_after_valid_bounds (self0 self1 self2 : NHCAdvisory)
    (s e : datetime) :
  data_frame_cache self0 = None ->
  set_start_date self0 s = Ok self1 ->
  set_end_date self1 e = Ok self2 ->
  exists m view self3,
    data_frame self2 = Ok (view, self3) /\
    data_frame_cache self3 = Some view /\
    view <> [] /\
    In m (column DataRow.datetime (__df self0)) /\ e <= m /\
    (forall d, In d (column DataRow.datetime (__df self0)) -> e <= d -> m <= d) /\
    (forall r, In r view <-> In r (__df self0) /\ s <= DataRow.datetime r <= m).
Proof.
  intros Hcache Hstart Hend.
  destruct (validated_window_view self0 self1 self2 s e Hcache Hstart Hend)
    as [m [r [Hrun [Hm [_ [Hem [Hleast [Hr _]]]]]]]].
  exists m. eexists. eexists. split; [exact Hrun|]. split; [reflexivity|].
  split; [|split; [exact Hm|split; [exact Hem|split; [exact Hleast|]]]].
  - intros E. rewrite E in Hr. destruct Hr.
  - intros r'. rewrite filter_In. unfold in_window. rewrite andb_true_iff.
    rewrite !Z.leb_le. tauto.
Qed.

Lemma data_frame_after_valid_bounds_witness :
  exists m view self3,
    data_frame (with_end_date (with_start_date (fresh_advisory sample_frame) 6) 12)
    = Ok (view, self3) /\
    data_frame_cache self3 = Some view /\
    view <> [] /\
    In m (column DataRow.datetime sample_frame) /\ 12 <= m /\
    (forall d, In d (column DataRow.datetime sample_frame) -> 12 <= d -> m <= d) /\
    (forall r, In r view <-> In r sample_frame /\ 6 <= DataRow.datetime r <= m).
Proof.
  apply (data_frame_after_valid_bounds (fresh_advisory sample_frame)
           (with_start_date (fresh_advisory sample_frame) 6)
           (with_end_date (with_start_date (fresh_advisory sample_frame) 6) 12)
           6 12); reflexivity.
Defined.



Lemma filter_all {A : Type} (f : A -> bool) (l : list A) :
  (forall a, In a l -> f a = true) -> filter f l = l.
Proof.
  induction l as [|a l IH]; intros Hall; [reflexivity|]. cbn [filter].
  rewrite (Hall a (or_introl eq_refl)), IH; [reflexivity|].
  intros b Hb. apply Hall. right; exact Hb.
Qed.

Lemma filter_none {A : Type} (f : A -> bool) (l : list A) :
  (forall a, In a l -> f a = false) -> filter f l = [].
Proof.
  induction l as [|a l IH]; intros Hall; [reflexivity|]. cbn [filter].
  rewrite (Hall a (or_introl eq_refl)). apply IH.
  intros b Hb. apply Hall. right; exact Hb.
Qed.

(** X12. Left absent, the two bounds default to the first and the last
    timestamp. On a time-ordered dataset whose first and last timestamps
    differ both defaults pass the validation and the window is the whole
    dataset; where the two coincide the default [start_date] fails the
    validation, and on an empty dataset the look-up of the first row raises
    [IndexError]. *)
Theorem default_window :
  _start_date_setter (fresh_advisory []) None = Raise IndexError /\
  _end_date_setter (fresh_advisory []) None = Raise IndexError /\
  forall (df : list DataRow.t) (a b : datetime),
    StronglySorted Z.le (column DataRow.datetime df) ->
    py_index (column DataRow.datetime df) 0 = Ok a ->
    py_index (column DataRow.datetime df) (-1) = Ok b ->
    (a = b -> _start_date_setter (fresh_advisory df) None = Raise AssertionError) /\
    (a <> b ->
     exists self1 self2,
       _start_date_setter (fresh_advisory df) None = Ok self1 /\
       _end_date_setter self1 None = Ok self2 /\
       __start_date self2 = Some a /\ __end_date self2 = Some b /\
       data_frame self2 = Ok (df, with_data_frame_cache self2 df)).
Proof.
  split; [reflexivity|]. split; [reflexivity|].
  intros df a b Hs Ha Hb.
  assert (Hspan : forall d, In d (column DataRow.datetime df) -> a <= d <= b)
    by (apply sorted_first_last; assumption).
  assert (Hab : a <= b) by (apply (Hspan b); eapply py_index_In; exact Hb).
  split.
  - intros E. subst b. unfold _start_date_setter. cbn [__df fresh_advisory].
    rewrite Ha, Hb. cbn [bind]. rewrite Z.ltb_irrefl, andb_false_r. reflexivity.
  - intros Hne.
    exists (with_start_date (fresh_advisory df) a).
    exists (with_end_date (with_start_date (fresh_advisory df) a) b).
    assert (Hlt : (a <? b) = true) by (apply Z.ltb_lt; lia).
    split; [|split; [|split; [reflexivity|split; [reflexivity|]]]].
    + unfold _start_date_setter. cbn [__df fresh_advisory].
      rewrite Ha, Hb. cbn [bind]. rewrite Z.leb_refl, Hlt. reflexivity.
    + unfold _end_date_setter, start_date.
      cbn [__df __start_date fresh_advisory with_start_date].
      rewrite Ha, Hb. cbn [bind getattr]. rewrite Z.leb_refl, Hlt. reflexivity.
    + unfold data_frame. cbn [data_frame_cache fresh_advisory with_start_date
                                with_end_date].
      unfold data_frame_body, start_date. cbn [__start_date with_end_date
                                                 with_start_date getattr bind].
      rewrite (file_end_date_least
                 (with_end_date (with_start_date (fresh_advisory df) a) b) b b eq_refl).
      * cbn [__df with_end_date with_start_date fresh_advisory].
        cbn [bind]. rewrite (filter_all (in_window a b) df); [reflexivity|].
        intros r Hr. unfold in_window.
        assert (Hd : a <= DataRow.datetime r <= b)
          by (apply Hspan; unfold column; apply in_map; exact Hr).
        apply andb_true_iff. split; apply Z.leb_le; lia.
      * eapply py_index_In; exact Hb.
      * lia.
      * intros d _ Hd. exact Hd.
Qed.

Lemma default_window_witness :
  exists self1 self2,
    _start_date_setter (fresh_advisory sample_frame) None = Ok self1 /\
    _end_date_setter self1 None = Ok self2 /\
    __start_date self2 = Some 0 /\ __end_date self2 = Some 18 /\
    data_frame self2 = Ok (sample_frame, with_data_frame_cache self2 sample_frame).
Proof.
  apply (proj2 (proj2 default_window) sample_frame 0 18).
  - cbn. repeat constructor; lia.
  - reflexivity.
  - reflexivity.
  - lia.
Defined.

(** X13. The [start_date] setter does not look at [end_date]: a value
    within the span of the dataset is stored even when it lies after
    [end_date]. When it lies after the marker of [end_date] too, the view
    computed next is empty and [fort22] returns the empty text without
    raising. *)
Theorem start_date_after_end_date (self : NHCAdvisory)
    (first final e m d : datetime) :
  data_frame_cache self = None ->
  py_index (column DataRow.datetime (__df self)) 0 = Ok first ->
  py_index (column DataRow.datetime (__df self)) (-1) = Ok final ->
  __end_date self = Some e ->
  In m (column DataRow.datetime (__df self)) ->
  e <= m ->
  (forall t, In t (column DataRow.datetime (__df self)) -> e <= t -> m <= t) ->
  first <= d < final ->
  m < d ->
  exists self1,
    set_start_date self d = Ok self1 /\
    __end_date self1 = Some e /\
    data_frame self1 = Ok ([], with_data_frame_cache self1 []) /\
    fort22 self1 = Ok (EmptyString, with_data_frame_cache self1 []).
Proof.
  intros Hcache Hfirst Hfinal He Hm Hem Hleast Hd Hmd.
  exists (with_start_date self d).
  assert (Hview : data_frame (with_start_date self d)
                  = Ok ([], with_data_frame_cache (with_start_date self d) [])).
  { unfold data_frame. cbn [data_frame_cache with_start_date]. rewrite Hcache.
    unfold data_frame_body, start_date. cbn [__start_date with_start_date getattr bind].
    rewrite (file_end_date_least (with_start_date self d) e m He Hm Hem Hleast).
    cbn [__df with_start_date bind].
    rewrite (filter_none (in_window d m) (__df self)); [reflexivity|].
    intros r _. unfold in_window. apply andb_false_iff.
    destruct (Z.leb_spec d (DataRow.datetime r));
      [right; apply Z.leb_gt; lia | left; reflexivity]. }
  split; [|split; [exact He|split; [exact Hview|]]].
  - rewrite (set_start_date_iff self first final d Hfirst Hfinal).
    replace ((first <=? d) && (d <? final)) with true; [reflexivity|].
    symmetry. apply andb_true_iff. split; [apply Z.leb_le | apply Z.ltb_lt]; lia.
  - unfold fort22. rewrite Hview. reflexivity.
Qed.

Lemma start_date_after_end_date_witness :
  exists self1,
    set_start_date (with_end_date sample_advisory 6) 12 = Ok self1 /\
    __end_date self1 = Some 6 /\
    data_frame self1 = Ok ([], with_data_frame_cache self1 []) /\
    fort22 self1 = Ok (EmptyString, with_data_frame_cache self1 []).
Proof.
  apply (start_date_after_end_date (with_end_date sample_advisory 6) 0 18 6 6 12).
  - reflexivity.
  - reflexivity.
  - reflexivity.
  - reflexivity.
  - cbn. tauto.
  - lia.
  - intros t Ht Hle. exact Hle.
  - lia.
  - lia.
Defined.

(** ** DateWindow: the marker of [end_date] *)

Lemma file_end_date_loop_none (self : NHCAdvisory) (e : datetime) :
  __end_date self = Some e ->
  forall dates,
    (forall d, In d dates -> d < e) ->
    _file_end_date_loop self dates = Ok None.
Proof.
  intros He dates. induction dates as [|h r IH]; intros Hall; [reflexivity|].
  cbn [_file_end_date_loop]. unfold end_date. rewrite He. cbn [getattr bind].
  destruct (Z.leb_spec e h) as [Hle|_].
  - specialize (Hall h (or_introl eq_refl)). lia.
  - apply IH. intros d Hd. apply Hall. right; exact Hd.
Qed.

Lemma before_or_reached (e : datetime) (dates : list datetime) :
  (forall d, In d dates -> d < e) \/ (exists d, In d dates /\ e <= d).
Proof.
  induction dates as [|h r [IH|[d [Hd Hed]]]].
  - left. intros d [].
  - destruct (Z.lt_ge_cases h e) as [Hlt|Hge].
    + left. intros d [<-|Hd]; [exact Hlt|apply IH; exact Hd].
    + right. exists h. split; [left; reflexivity|exact Hge].
  - right. exists d. split; [right; exact Hd|exact Hed].
Qed.

(** X14. [_file_end_date] returns the least timestamp of the dataset that
    is not before [end_date], whatever the order of the rows; it is
    [end_date] itself when a row has that timestamp. When every timestamp is
    before [end_date] it falls off its loop and returns [None]. *)
Theorem file_end_date_cases (self : NHCAdvisory) (e : datetime) :
  __end_date self = Some e ->
  (forall m,
      _file_end_date self = Ok (Some m) <->
      In m (column DataRow.datetime (__df self)) /\ e <= m /\
      forall d, In d (column DataRow.datetime (__df self)) -> e <= d -> m <= d) /\
  (_file_end_date self = Ok None <->
   forall d, In d (column DataRow.datetime (__df self)) -> d < e) /\
  (In e (column DataRow.datetime (__df self)) -> _file_end_date self = Ok (Some e)).
Proof.
  intros He.
  assert (Hfwd : forall m,
             _file_end_date self = Ok (Some m) ->
             In m (column DataRow.datetime (__df self)) /\ e <= m /\
             forall d, In d (column DataRow.datetime (__df self)) -> e <= d -> m <= d).
  { intros m Hrun. unfold _file_end_date in Hrun.
    destruct (before_or_reached e (unique (column DataRow.datetime (__df self))))
      as [Hall|Hex].
    - rewrite (file_end_date_loop_none self e He _ Hall) in Hrun. discriminate.
    - destruct (file_end_date_loop_finds self e He _ Hex (unique_sorted _))
        as [m' [Hrun' [Hm' [Hem' Hleast']]]].
      rewrite Hrun' in Hrun. apply Ok_inj in Hrun.
      assert (E : m' = m) by congruence. subst m'.
      split; [apply (proj1 (unique_In _ _)); exact Hm'|]. split; [exact Hem'|].
      intros d Hd. apply Hleast'. apply unique_In. exact Hd. }
  split; [|split].
  - intros m. split; [apply Hfwd|].
    intros [Hm [Hem Hleast]]. apply (file_end_date_least self e m); assumption.
  - split.
    + intros Hrun d Hd. destruct (Z.lt_ge_cases d e) as [Hlt|Hge]; [exact Hlt|].
      exfalso. unfold _file_end_date in Hrun.
      destruct (file_end_date_loop_finds self e He
                  (unique (column DataRow.datetime (__df self))))
        as [m [Hrun' _]].
      * exists d. split; [apply unique_In; exact Hd|exact Hge].
      * apply unique_sorted.
      * rewrite Hrun' in Hrun. discriminate.
    + intros Hall. unfold _file_end_date. apply (file_end_date_loop_none self e He).
      intros d Hd. apply Hall. apply (proj1 (unique_In _ _)). exact Hd.
  - intros Hin. apply (file_end_date_least self e e He Hin); [lia|].
    intros d _ Hd. exact Hd.
Qed.

Lemma file_end_date_cases_witness :
  (forall m,
      _file_end_date (with_end_date sample_advisory 7) = Ok (Some m) <->
      In m (column DataRow.datetime sample_frame) /\ 7 <= m /\
      forall d, In d (column DataRow.datetime sample_frame) -> 7 <= d -> m <= d) /\
  (_file_end_date (with_end_date sample_advisory 7) = Ok None <->
   forall d, In d (column DataRow.datetime sample_frame) -> d < 7) /\
  (In 7 (column DataRow.datetime sample_frame) ->
   _file_end_date (with_end_date sample_advisory 7) = Ok (Some 7)).
Proof.
  apply (file_end_date_cases (with_end_date sample_advisory 7) 7). reflexivity.
Defined.

(** ** TrackLineEncoder: the lines of the text *)















(** ** The two factors *)

Lemma factor_step_cases (f : Factors) (c : factor_call) :
  factor_step f c = f \/
  (exists v, c = SetBLADj v /\ (0 <=? v)%float = true /\ (v <=? 1)%float = true /\
             factor_step f c = mkFactors (Some v) (__geofactor f)) \/
  (exists v, c = SetGeofactor v /\ (0 <=? v)%float = true /\ (v <=? 1)%float = true /\
             factor_step f c = mkFactors (__BLADj f) (Some v)).
Proof.
  destruct c as [v|v]; unfold factor_step, BLADj_setter, geofactor_setter;
    destruct (0 <=? v)%float eqn:Hlo, (v <=? 1)%float eqn:Hhi;
    cbn [andb assert bind]; auto.
  - right. left. exists v. auto.
  - right. right. exists v. auto.
Qed.

(** X17. Whatever values the two setters are called with, in whatever
    order, and whichever of the calls raise, [BLADj] and [geofactor] read
    a value between 0 and 1: the default, 0.9 and 1, or a value that one of
    the calls passed. A value outside the interval, or a nan, is never
    stored. *)
Theorem factors_stay_in_unit_interval (calls : list factor_call) (f : Factors) :
  f = fold_left factor_step calls (mkFactors None None) ->
  ((0 <=? BLADj f)%float = true /\ (BLADj f <=? 1)%float = true) /\
  ((0 <=? geofactor f)%float = true /\ (geofactor f <=? 1)%float = true) /\
  (BLADj f = nine_tenths \/ In (SetBLADj (BLADj f)) calls) /\
  (geofactor f = 1%float \/ In (SetGeofactor (geofactor f)) calls).
Proof.
  intros ->.
  assert (Hgen : forall calls f0 (seen : list factor_call),
             ((0 <=? BLADj f0)%float = true /\ (BLADj f0 <=? 1)%float = true) ->
             ((0 <=? geofactor f0)%float = true /\ (geofactor f0 <=? 1)%float = true) ->
             (BLADj f0 = nine_tenths \/ In (SetBLADj (BLADj f0)) seen) ->
             (geofactor f0 = 1%float \/ In (SetGeofactor (geofactor f0)) seen) ->
             let f := fold_left factor_step calls f0 in
             ((0 <=? BLADj f)%float = true /\ (BLADj f <=? 1)%float = true) /\
             ((0 <=? geofactor f)%float = true /\ (geofactor f <=? 1)%float = true) /\
             (BLADj f = nine_tenths \/ In (SetBLADj (BLADj f)) (seen ++ calls)) /\
             (geofactor f = 1%float \/ In (SetGeofactor (geofactor f)) (seen ++ calls))).
  { clear calls. induction calls as [|c calls IH]; intros f0 seen Hb Hg Hbs Hgs.
    - cbn [fold_left]. rewrite app_nil_r. auto.
    - cbn [fold_left].
      replace (seen ++ c :: calls) with ((seen ++ [c]) ++ calls)
        by (rewrite <- app_assoc; reflexivity).
      assert (Hseen : forall x, In x seen -> In x (seen ++ [c]))
        by (intros x Hx; apply in_or_app; left; exact Hx).
      assert (Hc : In c (seen ++ [c]))
        by (apply in_or_app; right; left; reflexivity).
      destruct (factor_step_cases f0 c) as [E|[[v [Ec [Hlo [Hhi E]]]]|[v [Ec [Hlo [Hhi E]]]]]];
        rewrite E; apply IH; unfold BLADj, geofactor in *;
        cbn [__BLADj __geofactor]; auto.
      + destruct Hbs as [Hbs|Hbs]; [left; exact Hbs|right; apply Hseen; exact Hbs].
      + destruct Hgs as [Hgs|Hgs]; [left; exact Hgs|right; apply Hseen; exact Hgs].
      + right. rewrite <- Ec. exact Hc.
      + destruct Hgs as [Hgs|Hgs]; [left; exact Hgs|right; apply Hseen; exact Hgs].
      + destruct Hbs as [Hbs|Hbs]; [left; exact Hbs|right; apply Hseen; exact Hbs].
      + right. rewrite <- Ec. exact Hc. }
  apply (Hgen calls (mkFactors None None) []).
  - split; reflexivity.
  - split; reflexivity.
  - left; reflexivity.
  - left; reflexivity.
Qed.

Lemma factors_stay_in_unit_interval_witness :
  let f := mkFactors (Some 0.5%float) None in
  ((0 <=? BLADj f)%float = true /\ (BLADj f <=? 1)%float = true) /\
  ((0 <=? geofactor f)%float = true /\ (geofactor f <=? 1)%float = true) /\
  (BLADj f = nine_tenths \/
   In (SetBLADj (BLADj f))
     [SetBLADj 0.5; SetGeofactor 2; SetBLADj nan; SetBLADj (-1)]%float) /\
  (geofactor f = 1%float \/
   In (SetGeofactor (geofactor f))
     [SetBLADj 0.5; SetGeofactor 2; SetBLADj nan; SetBLADj (-1)]%float).
Proof.
  apply (factors_stay_in_unit_interval
           [SetBLADj 0.5; SetGeofactor 2; SetBLADj nan; SetBLADj (-1)]%float
           (mkFactors (Some 0.5%float) None)).
  vm_compute. reflexivity.
Defined.

(** ** Writing the file *)


